(** * Datasets, transforms and loaders of the PyTorch notebooks

    A shallow embedding of the code cells of [Transform.ipynb] and
    [Datasets & Dataloaders.ipynb]: the one-hot [target_transform], the class
    [CustomImageDatset] with its three methods, and the batch iterator the
    notebook wraps around a dataset.

    Python values are dynamically typed, so labels, file names, images and
    whatever a transform returns live in one universe [value].  Exceptions
    are results of type [result]; methods that touch the object or the disk
    run in a small state-and-exception monad [M], whose state holds the
    object, the disk and a log of what was read and decoded.

    The calls into pandas, torch, torchvision and [os.path] are modelled by
    what they are documented to do on the arguments the notebooks pass; the
    CSV parser and the image decoder stay parameters. *)

From Stdlib Require Import ZArith List String Ascii Bool Lia Arith.
From Stdlib Require Import Permutation.
From Stdlib Require Import Floats.SpecFloat.
Import ListNotations.

Local Open Scope Z_scope.

(** ** Exceptions and results *)

Module Py.

(** The exceptions the modelled calls raise.  Each constructor carries the
    name the design document gives the failure; the Python exception behind
    it is noted next to it. *)
Inductive exn : Type :=
| ManifestReadError      (* pandas.read_csv: FileNotFoundError, EmptyDataError, ParserError *)
| SampleNotFoundError    (* torchvision.io.read_image on a path without a file: RuntimeError *)
| ImageDecodeError       (* torchvision.io.read_image on bytes that are no image: RuntimeError *)
| IndexOutOfRangeError   (* pandas .iloc: IndexError, positional indexer out of bounds *)
| ScatterIndexError      (* Tensor.scatter_: RuntimeError, index out of bounds for the dimension *)
| DimensionError         (* Tensor.scatter_: dim out of range, or index and self differ in dimensions *)
| TypeError              (* os.path.join on a non-string, torch.tensor on a string *)
| OverflowError          (* an integer that does not fit the machine type it is converted to *)
| ShapeMismatchError.    (* default collate: RuntimeError, stack expects tensors of equal size *)

Inductive result (A : Type) : Type :=
| Ok (a : A)
| Raise (e : exn).

Arguments Ok {A} a.
Arguments Raise {A} e.

Definition is_ok {A} (r : result A) : bool :=
  match r with Ok _ => true | Raise _ => false end.

(** State and exceptions: a raised exception keeps the state reached so far,
    as in Python, where nothing is rolled back. *)
Definition M (S A : Type) : Type := S -> result A * S.

Definition ret {S A} (a : A) : M S A := fun s => (Ok a, s).

Definition bind {S A B} (m : M S A) (k : A -> M S B) : M S B :=
  fun s =>
    match m s with
    | (Ok a, s') => k a s'
    | (Raise e, s') => (Raise e, s')
    end.

Definition lift {S A} (r : result A) : M S A := fun s => (r, s).

Definition gets {S A} (f : S -> A) : M S A := fun s => (Ok (f s), s).

(** Run a computation on the second component of a pair of states. *)
Definition on_snd {S1 S2 A} (m : M S2 A) : M (S1 * S2) A :=
  fun st =>
    let '(r, s2) := m (snd st) in (r, (fst st, s2)).

End Py.

Import Py.

Declare Scope py_scope.
Delimit Scope py_scope with py.
Notation "x <- m ;; k" := (bind m (fun x => k))
  (at level 61, m at next level, right associativity) : py_scope.

(** ** Tensors *)

Module Torch.

Inductive dtype : Type := uint8 | int64 | float32.

(** An element: an integer, or a binary32 float in the format-independent
    representation of the standard library (precision 24, emax 128). *)
Inductive scalar : Type :=
| SInt (z : Z)
| SFloat (f : spec_float).

Definition f32_of_Z (z : Z) : spec_float := binary_normalize 24 128 z 0 false.

(** Whether a Python integer converts to an element of the type; torch
    raises when it does not ("value cannot be converted ... without
    overflow"). *)
Definition fits (dt : dtype) (z : Z) : bool :=
  match dt with
  | uint8 => (0 <=? z) && (z <? 256)
  | int64 => (- 2 ^ 63 <=? z) && (z <? 2 ^ 63)
  | float32 =>
      match f32_of_Z z with
      | S754_infinity _ => false
      | _ => true
      end
  end.

Definition cast (dt : dtype) (z : Z) : result scalar :=
  if fits dt z then
    Ok (match dt with
        | uint8 | int64 => SInt z
        | float32 => SFloat (f32_of_Z z)
        end)
  else Raise OverflowError.

Definition zero (dt : dtype) : scalar :=
  match dt with
  | uint8 | int64 => SInt 0
  | float32 => SFloat (S754_zero false)
  end.

Record tensor : Type := mkTensor {
  t_dtype : dtype;
  t_shape : list nat;
  t_data : list scalar
}.

(** [torch.zeros(n, dtype=dt)] *)
Definition zeros (n : nat) (dt : dtype) : tensor :=
  mkTensor dt [n] (repeat (zero dt) n).

(** Assignment [l[i] = x] on a flat list, [i] in range. *)
Fixpoint set_nth (l : list scalar) (i : nat) (x : scalar) : list scalar :=
  match l, i with
  | [], _ => []
  | _ :: l', O => x :: l'
  | y :: l', S i' => y :: set_nth l' i' x
  end.

(** [self.scatter_(dim, index, value=v)] for a one-dimensional [self], the
    shape the notebook uses: [index] holds [int64] entries and has one
    dimension, or none and then one entry; [dim] is [0], or [-1] which names
    the same axis; [v] must convert to the element type of [self]; every
    entry [i] of [index] must satisfy [0 <= i < self.size(0)] and then
    [self[i] = v].  Otherwise the call raises and nothing is returned. *)
Fixpoint scatter_entries (data : list scalar) (idxs : list scalar) (x : scalar)
  : result (list scalar) :=
  match idxs with
  | [] => Ok data
  | SInt i :: idxs' =>
      if (0 <=? i) && (i <? Z.of_nat (List.length data))
      then scatter_entries (set_nth data (Z.to_nat i) x) idxs' x
      else Raise ScatterIndexError
  | SFloat _ :: _ => Raise TypeError
  end.

Definition scatter_ (self : tensor) (dim : Z) (index : tensor) (v : Z) : result tensor :=
  match t_shape self, t_dtype index with
  | [_], int64 =>
      match t_shape index with
      | [] | [_] =>
          if (dim =? 0) || (dim =? -1) then
            match cast (t_dtype self) v with
            | Raise e => Raise e
            | Ok x =>
                match scatter_entries (t_data self) (t_data index) x with
                | Ok d => Ok (mkTensor (t_dtype self) (t_shape self) d)
                | Raise e => Raise e
                end
            end
          else Raise DimensionError
      | _ :: _ :: _ => Raise DimensionError
      end
  | _, _ => Raise TypeError
  end.

End Torch.

Import Torch.

(** ** Python values *)

Inductive value : Type :=
| VNone
| VInt (z : Z)
| VStr (s : string)
| VTensor (t : tensor).

(** A callable object: what calling it does, and what [bool(obj)] gives for
    it.  An object is true unless its class says otherwise (a [__bool__]
    that returns [False], a [__len__] that returns 0). *)
Record callable : Type := mkCallable {
  truthy : bool;
  __call__ : value -> result value
}.

Coercion __call__ : callable >-> Funclass.

(** [torch.tensor(y)]: a Python integer becomes a zero-dimensional [int64]
    tensor when it fits; a tensor is copied; a string is refused. *)
Definition torch_tensor (y : value) : result tensor :=
  match y with
  | VInt z =>
      if (- 2 ^ 63 <=? z) && (z <? 2 ^ 63)
      then Ok (mkTensor int64 [] [SInt z])
      else Raise OverflowError
  | VTensor t => Ok t
  | VStr _ | VNone => Raise TypeError
  end.

(** ** Transform.ipynb *)

Module Transform.

(** [Lambda(f)]: an object that calls [f]; its class defines neither
    [__bool__] nor [__len__], so the object is true. *)
Definition Lambda (f : value -> result value) : callable := mkCallable true f.

(** [target_transform = Lambda(lambda y: torch.zeros(10, dtype=torch.float)
      .scatter_(dim=0, index=torch.tensor(y), value=1))] *)
Definition target_transform : callable :=
  Lambda (fun y =>
    match torch_tensor y with
    | Ok index =>
        match scatter_ (zeros 10 float32) 0 index 1 with
        | Ok t => Ok (VTensor t)
        | Raise e => Raise e
        end
    | Raise e => Raise e
    end).

End Transform.

(** ** The library calls of the dataset class *)

Module Pandas.

(** A frame as [read_csv] returns it: the column names taken from the header
    line and the data rows below it, in file order.  A row shorter than the
    header reads as missing values. *)
Record DataFrame : Type := mkDataFrame {
  columns : list string;
  data : list (list value)
}.

(** [len(df)] is the number of data rows. *)
Definition len (df : DataFrame) : Z := Z.of_nat (List.length (data df)).

(** Whether a Python integer fits the machine integer an index is converted
    to. *)
Definition fits_index (key : Z) : bool := (- 2 ^ 63 <=? key) && (key <? 2 ^ 63).

(** The bounds check of the positional indexer on one axis: a key is accepted
    when [-len_axis <= key < len_axis], a negative one counting from the end.
    A refused key raises the [IndexError] when it fits a machine integer; one
    that does not fit raises [OverflowError] in its conversion (no axis is
    that long, so such a key is never within the bounds). *)
Definition validate_integer (key len_axis : Z) : result nat :=
  if (key >=? len_axis) || (key <? - len_axis)
  then if fits_index key then Raise IndexOutOfRangeError else Raise OverflowError
  else Ok (Z.to_nat (if key <? 0 then key + len_axis else key)).

(** [df.iloc[row, col]] with two integers: rows are checked first. *)
Definition iloc (df : DataFrame) (row col : Z) : result value :=
  match validate_integer row (len df) with
  | Raise e => Raise e
  | Ok r =>
      match validate_integer col (Z.of_nat (List.length (columns df))) with
      | Raise e => Raise e
      | Ok c => Ok (nth c (nth r (data df) []) VNone)
      end
  end.

End Pandas.

Module Os.

Definition sep : ascii := "/"%char.

Definition startswith_sep (s : string) : bool :=
  match s with
  | String c _ => Ascii.eqb c sep
  | EmptyString => false
  end.

Fixpoint endswith_sep (s : string) : bool :=
  match s with
  | EmptyString => false
  | String c EmptyString => Ascii.eqb c sep
  | String _ s' => endswith_sep s'
  end.

(** [os.path.join(a, b)] of [posixpath] on two strings: an absolute [b]
    replaces [a]; else [b] is appended, after a separator unless [a] is empty
    or ends in one. *)
Definition join (a b : string) : string :=
  if startswith_sep b then b
  else if (String.length a =? 0)%nat || endswith_sep a then (a ++ b)%string
  else (a ++ String sep b)%string.

(** What joining a directory and a file name is to give, case by case: an
    absolute name stands as it is; a relative one follows the directory,
    with one separator put between them unless the directory is empty or
    brings its own. *)
Definition joined (dir name p : string) : Prop :=
  ((exists rest, name = String "/" rest) -> p = name) /\
  ((forall rest, name <> String "/" rest) ->
   (dir = EmptyString \/ exists d, dir = (d ++ "/")%string) ->
   p = (dir ++ name)%string) /\
  ((forall rest, name <> String "/" rest) ->
   dir <> EmptyString -> (forall d, dir <> (d ++ "/")%string) ->
   p = (dir ++ "/" ++ name)%string).

(** The call on a value read from a frame: a [b] that is not a string is a
    [TypeError]. *)
Definition path_join (a : string) (b : value) : result string :=
  match b with
  | VStr b => Ok (join a b)
  | _ => Raise TypeError
  end.

End Os.

(** What the library calls do to the outside, as a log: a file handed to
    [read_file] (whether or not it exists), and the bytes of a file that was
    there handed on to the decoding half of [read_image].  That half is not
    looked into: its refusals (bytes that are no image, a file of no bytes
    at all) are the decoder parameter answering [None]. *)
Inductive event : Type :=
| ReadFile (path : string)
| DecodeImage (path : string).

(** The disk, and the log of the events so far, oldest first. *)
Record World : Type := mkWorld {
  disk : string -> option (list Byte.byte);
  log : list event
}.

Definition emit (e : event) : M World unit :=
  fun w => (Ok tt, mkWorld (disk w) (log w ++ [e])).

Definition read_file (path : string) : M World (option (list Byte.byte)) :=
  fun w => (Ok (disk w path), mkWorld (disk w) (log w ++ [ReadFile path])).

(** ** Datasets & Dataloaders.ipynb: the custom dataset *)

Module Datasets.

Import Pandas.

Local Open Scope py_scope.

(** The attributes [__init__] sets.  A transform that is [None] in Python is
    [None] here; a callable object is [Some], true or false as Python finds
    it. *)
Record CustomImageDatset : Type := mkDataset {
  image_labels : DataFrame;
  img_dir : string;
  transform : option callable;
  target_transform : option callable
}.

(** A sample: the pair [image, label] that [__getitem__] returns. *)
Definition Sample : Type := (value * value)%type.

(** What a method runs on: the object [self] and the world around it. *)
Definition State : Type := (CustomImageDatset * World)%type.

Definition self : M State CustomImageDatset := gets fst.

Section Codecs.

(** The CSV parser of pandas and the image decoder of torchvision, both
    outside this repository: [None] when the bytes are refused. *)
Variable parse_csv : list Byte.byte -> option DataFrame.
Variable decode_image : list Byte.byte -> option tensor.

(** [pd.read_csv(path)] *)
Definition read_csv (path : string) : M World DataFrame :=
  bytes <- read_file path ;;
  match bytes with
  | None => lift (Raise ManifestReadError)
  | Some b =>
      match parse_csv b with
      | None => lift (Raise ManifestReadError)
      | Some df => ret df
      end
  end.

(** [read_image(path)]: the file is read, then its bytes go to the decoding
    half of the call. *)
Definition read_image (path : string) : M World tensor :=
  bytes <- read_file path ;;
  match bytes with
  | None => lift (Raise SampleNotFoundError)
  | Some b =>
      _ <- emit (DecodeImage path) ;;
      match decode_image b with
      | None => lift (Raise ImageDecodeError)
      | Some t => ret t
      end
  end.

(** [def __init__(self, annotation_file, image_dir, transform=None,
                  target_transform=None)] *)
Definition __init__ (annotation_file image_dir : string)
    (transform target_transform : option callable)
  : M World CustomImageDatset :=
  df <- read_csv annotation_file ;;
  ret (mkDataset df image_dir transform target_transform).

(** [def __len__(self): return len(self.image_labels)] *)
Definition __len__ : M State Z :=
  s <- self ;;
  ret (len (image_labels s)).

(** [def __getitem__(self, idx)]; [if self.transform:] asks for the truth
    value of the attribute: [None] is false, an object is as its class
    says. *)
Definition __getitem__ (idx : Z) : M State Sample :=
  s <- self ;;
  fname <- lift (iloc (image_labels s) idx 0) ;;
  img_path <- lift (Os.path_join (img_dir s) fname) ;;
  image <- on_snd (read_image img_path) ;;
  label <- lift (iloc (image_labels s) idx 1) ;;
  image <- match transform s with
           | Some t => if truthy t then lift (t (VTensor image))
                       else ret (VTensor image)
           | None => ret (VTensor image)
           end ;;
  label <- match target_transform s with
           | Some t => if truthy t then lift (t label) else ret label
           | None => ret label
           end ;;
  ret (image, label).

(** The manifest a disk holds at [path]: the parsed frame, when the file is
    there and the parser accepts it. *)
Definition manifest_at (d : string -> option (list Byte.byte)) (path : string)
  : option DataFrame :=
  match d path with
  | Some b => parse_csv b
  | None => None
  end.

(** A client's use of a store: a sequence of method calls, with what each
    one returned or raised. *)
Inductive call : Type :=
| Length
| GetItem (idx : Z).

Inductive outcome : Type :=
| OLength (r : result Z)
| OGetItem (r : result Sample).

Definition run_call (c : call) (st : State) : outcome * State :=
  match c with
  | Length => let '(r, st') := __len__ st in (OLength r, st')
  | GetItem idx => let '(r, st') := __getitem__ idx st in (OGetItem r, st')
  end.

Fixpoint run_calls (cs : list call) (st : State) : list outcome * State :=
  match cs with
  | [] => ([], st)
  | c :: cs' =>
      let '(o, st') := run_call c st in
      let '(os, st'') := run_calls cs' st' in
      (o :: os, st'')
  end.

End Codecs.

(** The manifest entry of row [i]: the file name in the first column and the
    label in the second, when the frame has both and the name is a string. *)
Definition manifest_row (df : DataFrame) (i : nat) : option (string * value) :=
  if (2 <=? List.length (columns df))%nat then
    match nth_error (data df) i with
    | Some row =>
        match nth 0 row VNone with
        | VStr fname => Some (fname, nth 1 row VNone)
        | _ => None
        end
    | None => None
    end
  else None.

(** What [if t: x = t(x)] does to [x]: a transform that is absent, or is
    there and false, leaves [x] as it is. *)
Definition apply_opt (t : option callable) (x : value) : result value :=
  match t with
  | Some f => if truthy f then f x else Ok x
  | None => Ok x
  end.

(** The events one call causes on a given store and disk: none for
    [Length]; for [GetItem], one read of the file the row names, and one
    decoding when that file exists. *)
Definition call_events (s : CustomImageDatset) (d : string -> option (list Byte.byte))
    (c : call) : list event :=
  match c with
  | Length => []
  | GetItem idx =>
      match iloc (image_labels s) idx 0 with
      | Ok fname =>
          match Os.path_join (img_dir s) fname with
          | Ok p =>
              match d p with
              | Some _ => [ReadFile p; DecodeImage p]
              | None => [ReadFile p]
              end
          | Raise _ => []
          end
      | Raise _ => []
      end
  end.

End Datasets.

(** ** Datasets & Dataloaders.ipynb: the batch iterator

    The notebook builds [DataLoader(training_data, batch_size=64,
    shuffle=True)] and takes batches from it.  The class comes from
    [torch.utils.data]; its code is not among the sources, so the iterator
    below follows section 4.2 of the design document. *)

Module Loader.

Import Pandas Datasets.

Local Open Scope py_scope.
Local Open Scope nat_scope.

(** Modelled from the spec: the arguments of [DataLoader], missing from the
    sources.  "Construct(store, batchSize: positive integer, shuffle:
    boolean)"; the store is the object of the state the iterator runs on. *)
Record DataLoader : Type := mkLoader {
  batch_size : positive;
  shuffle : bool
}.

Fixpoint insert_at (k : nat) (x : nat) (l : list nat) : list nat :=
  match k, l with
  | O, _ => x :: l
  | S _, [] => [x]
  | S k', y :: l' => y :: insert_at k' x l'
  end.

(** Modelled from the spec: the shuffled order of [DataLoader], missing from
    the sources.  "a random permutation of [0, Length)": index [m] is put at
    the position the generator draws for it among the indices below it, so
    every draw sequence gives a permutation and every permutation has one. *)
Fixpoint randperm (draw : nat -> nat) (n : nat) : list nat :=
  match n with
  | O => []
  | S m => insert_at (draw m) m (randperm draw m)
  end.

(** Modelled from the spec: the index order of one pass of [DataLoader],
    missing from the sources.  "If shuffle is true, the index order for each
    pass is an independent random permutation of [0, Length); if false,
    indices are visited in ascending order." *)
Definition index_order (dl : DataLoader) (draw : nat -> nat) (n : nat) : list nat :=
  if shuffle dl then randperm draw n else seq 0 n.

(** Modelled from the spec: the grouping of [DataLoader], missing from the
    sources.  Indices are taken in order into the current batch; a batch that
    reaches [b] indices is yielded and a new one begun; what is left at the
    end of the pass is yielded as the smaller final batch. *)
Fixpoint batches_from (b : nat) (order batch : list nat) : list (list nat) :=
  match order with
  | [] => if 0 <? List.length batch then [batch] else []
  | idx :: order' =>
      let batch' := batch ++ [idx] in
      if List.length batch' =? b
      then batch' :: batches_from b order' []
      else batches_from b order' batch'
  end.

(** Modelled from the spec: the index batches of one epoch of [DataLoader],
    missing from the sources, over a store of length [n]. *)
Definition epoch_batches (dl : DataLoader) (draw : nat -> nat) (n : nat) : list (list nat) :=
  batches_from (Pos.to_nat (batch_size dl)) (index_order dl draw n) [].

(** The sizes the design document gives the batches over [n] indices: [n / b] full ones, then the
    remainder when there is one. *)
Definition sizes (b n : nat) : list nat :=
  repeat b (n / b) ++ (if n mod b =? 0 then [] else [n mod b]).

(** Modelled from the spec: the start of one pass of [DataLoader], missing
    from the sources: the length of the store is asked, and the pass is the
    sequence of index batches over it; each batch is then "assembled by
    calling Store.GetItem for each selected index". *)
Definition epoch_plan (dl : DataLoader) (draw : nat -> nat) : M State (list (list nat)) :=
  n <- __len__ ;;
  ret (epoch_batches dl draw (Z.to_nat n)).

End Loader.

(** ** A small store to run the code on *)

Module Sample10.

Import Pandas Datasets.

Local Open Scope string_scope.

(** Ten rows under a two-column header. *)
Definition frame : DataFrame :=
  mkDataFrame ["file"; "label"]
    [ [VStr "img0.png"; VInt 9]; [VStr "img1.png"; VInt 0];
      [VStr "img2.png"; VInt 0]; [VStr "img3.png"; VInt 3];
      [VStr "img4.png"; VInt 0]; [VStr "img5.png"; VInt 2];
      [VStr "img6.png"; VInt 7]; [VStr "img7.png"; VInt 2];
      [VStr "img8.png"; VInt 5]; [VStr "img9.png"; VInt 5] ].

Definition csv_bytes : list Byte.byte := [Byte.x66; Byte.x2c; Byte.x6c].

Definition image_bytes : list Byte.byte := [Byte.x89; Byte.x50; Byte.x4e; Byte.x47].

(** A one-pixel grey image, as [read_image] shapes it: channels, height,
    width. *)
Definition pixel : tensor := mkTensor uint8 [1%nat; 1%nat; 1%nat] [SInt 128].

Definition parse_csv (b : list Byte.byte) : option DataFrame :=
  match b with
  | [] => None
  | _ :: _ => Some frame
  end.

Definition decode_image (b : list Byte.byte) : option tensor :=
  match b with
  | Byte.x89 :: _ => Some pixel
  | _ => None
  end.

(** The manifest and the images of rows 0 to 8; the file of row 9 is not
    there. *)
Definition files (path : string) : option (list Byte.byte) :=
  if path =? "labels.csv" then Some csv_bytes
  else if path =? "imgs/img9.png" then None
  else if String.prefix "imgs/img" path then Some image_bytes
  else None.

Definition world : World := mkWorld files [].

Definition store : CustomImageDatset :=
  mkDataset frame "imgs" None (Some Transform.target_transform).

End Sample10.

(** ** More stores, for the edges of the code *)

Module Edge.

Import Pandas Datasets.

Local Open Scope string_scope.

(** A manifest whose first column holds numbers, the way [read_csv] types a
    column of digits. *)
Definition numeric_frame : DataFrame :=
  mkDataFrame ["file"; "label"] [ [VInt 1; VInt 0]; [VInt 2; VInt 1] ].

(** A manifest that lists the file names and nothing else. *)
Definition names_only_frame : DataFrame :=
  mkDataFrame ["file"] [ [VStr "img0.png"]; [VStr "img1.png"] ].

(** A manifest with its header and no rows. *)
Definition empty_frame : DataFrame := mkDataFrame ["file"; "label"] [].

(** A label outside the ten classes, and a file named by an absolute path. *)
Definition odd_frame : DataFrame :=
  mkDataFrame ["file"; "label"]
    [ [VStr "img0.png"; VInt 10]; [VStr "/data/img1.png"; VInt 1] ].

Definition files (path : string) : option (list Byte.byte) :=
  if path =? "/data/img1.png" then Some Sample10.image_bytes
  else Sample10.files path.

Definition world : World := mkWorld files [].

(** A transform that raises on every argument. *)
Definition refuse : callable := mkCallable true (fun _ => Raise TypeError).

(** An object that Python finds false (its class has a [__len__] and the
    object is empty) and that answers [None] when called. *)
Definition falsy : callable := mkCallable false (fun _ => Ok VNone).

End Edge.

(** ** Datasets & Dataloaders.ipynb: the names of the classes *)

Module Notebook.

Local Open Scope string_scope.

(** [labels_map = {0: "T-Shirt", 1: "Trouser", ...}]: the dictionary, as its
    items in the order they are written. *)
Definition labels_map : list (Z * string) :=
  [ (0, "T-Shirt"); (1, "Trouser"); (2, "Pullover"); (3, "Dress"); (4, "Coat");
    (5, "Sandal"); (6, "Shirt"); (7, "Sneaker"); (8, "Bag"); (9, "Ankle Boot") ].

(** [d[k]] on such a dictionary; [None] stands for the [KeyError]. *)
Fixpoint dict_lookup (d : list (Z * string)) (k : Z) : option string :=
  match d with
  | [] => None
  | (k', v) :: d' => if (k =? k')%Z then Some v else dict_lookup d' k
  end.

End Notebook.

(** * Properties *)

(** ** The one-hot target transform *)

Module TransformFacts.

Import Transform.

Lemma set_nth_length (l : list scalar) (i : nat) (x : scalar) :
  List.length (set_nth l i x) = List.length l.
Proof.
  revert i; induction l as [|y l IH]; intros [|i]; simpl; auto.
Qed.

Lemma nth_set_nth (l : list scalar) (i j : nat) (x d : scalar) :
  (i < List.length l)%nat ->
  nth j (set_nth l i x) d = if Nat.eqb j i then x else nth j l d.
Proof.
  revert i j; induction l as [|y l IH]; intros i j Hi; simpl in Hi.
  - lia.
  - destruct i as [|i], j as [|j]; simpl; try reflexivity.
    apply IH; lia.
Qed.

Lemma torch_tensor_int64 (y : Z) :
  - 2 ^ 63 <= y < 2 ^ 63 ->
  torch_tensor (VInt y) = Ok (mkTensor int64 [] [SInt y]).
Proof.
  intros Hy; unfold torch_tensor.
  destruct (Z.leb_spec (- 2 ^ 63) y); [|lia].
  destruct (Z.ltb_spec y (2 ^ 63)); [reflexivity|lia].
Qed.

(** The transform on any integer label: the one-hot vector inside the ten
    classes, an exception outside. *)
Lemma target_transform_int (y : Z) :
  0 <= y < 10 ->
  target_transform (VInt y) =
    Ok (VTensor (mkTensor float32 [10%nat]
                   (set_nth (repeat (SFloat (S754_zero false)) 10) (Z.to_nat y)
                            (SFloat (SFone 24 128))))).
Proof.
  intros Hy. unfold target_transform, Lambda. cbn [__call__].
  rewrite torch_tensor_int64 by lia.
  unfold scatter_, zeros; cbn [t_shape t_dtype t_data Z.eqb orb zero].
  change (cast float32 1) with (Ok (SFloat (SFone 24 128))).
  unfold scatter_entries.
  rewrite repeat_length.
  destruct (Z.leb_spec 0 y); [|lia].
  destruct (Z.ltb_spec y (Z.of_nat 10)); [|lia].
  reflexivity.
Qed.

(** C9. For every integer label [y] with [0 <= y < 10] the one-hot target
    transform returns a [float32] vector of length 10 whose entry at index
    [y] is 1.0 and whose nine other entries are 0.0. *)
Theorem target_transform_one_hot (y : Z) :
  0 <= y < 10 ->
  exists t : tensor,
    target_transform (VInt y) = Ok (VTensor t) /\
    t_dtype t = float32 /\
    t_shape t = [10%nat] /\
    List.length (t_data t) = 10%nat /\
    forall j : nat, (j < 10)%nat ->
      nth_error (t_data t) j =
        Some (SFloat (if Z.of_nat j =? y then SFone 24 128 else S754_zero false)).
Proof.
  intros Hy. eexists. split; [apply target_transform_int; exact Hy|].
  cbn [t_dtype t_shape t_data].
  repeat split.
  - rewrite set_nth_length, repeat_length; reflexivity.
  - intros j Hj.
    rewrite (nth_error_nth' _ (SInt 0))
      by (rewrite set_nth_length, repeat_length; exact Hj).
    rewrite nth_set_nth by (rewrite repeat_length; lia).
    destruct (Nat.eqb_spec j (Z.to_nat y)) as [->|Hne].
    + rewrite Z2Nat.id by lia. rewrite Z.eqb_refl. reflexivity.
    + destruct (Z.eqb_spec (Z.of_nat j) y) as [E|_]; [subst y; lia|].
      rewrite nth_repeat_lt by exact Hj. reflexivity.
Qed.

(** The theorem at label 3. *)
Lemma target_transform_one_hot_witness :
  0 <= 3 < 10 /\
  exists t : tensor,
    target_transform (VInt 3) = Ok (VTensor t) /\
    t_dtype t = float32 /\
    t_shape t = [10%nat] /\
    List.length (t_data t) = 10%nat /\
    forall j : nat, (j < 10)%nat ->
      nth_error (t_data t) j =
        Some (SFloat (if Z.of_nat j =? 3 then SFone 24 128 else S754_zero false)).
Proof.
  split; [lia | apply (target_transform_one_hot 3); lia].
Defined.

End TransformFacts.

(** ** The custom dataset *)

Module DatasetFacts.

Import Pandas Datasets.

(** The cases of [if t: x = t(x)]: no transform, a false one, a true one
    that returns or raises. *)
Ltac transform_cases t x :=
  destruct t as [?c|];
  [ match goal with
    | c : callable |- _ => destruct (truthy c); [destruct (__call__ c x)|]
    end
  | ].

Lemma validate_integer_nonneg (key n : Z) :
  0 <= key < n -> validate_integer key n = Ok (Z.to_nat key).
Proof.
  intros H. unfold validate_integer.
  destruct (Z.geb_spec key n); [lia|].
  destruct (Z.ltb_spec key (- n)); [lia|]. cbn [orb].
  destruct (Z.ltb_spec key 0); [lia|reflexivity].
Qed.

Lemma validate_integer_neg (key n : Z) :
  - n <= key < 0 -> validate_integer key n = Ok (Z.to_nat (key + n)).
Proof.
  intros H. unfold validate_integer.
  destruct (Z.geb_spec key n); [lia|].
  destruct (Z.ltb_spec key (- n)); [lia|]. cbn [orb].
  destruct (Z.ltb_spec key 0); [reflexivity|lia].
Qed.

Lemma fits_index_true (key : Z) :
  - 2 ^ 63 <= key < 2 ^ 63 -> fits_index key = true.
Proof.
  intros H. unfold fits_index.
  destruct (Z.leb_spec (- 2 ^ 63) key); [|lia].
  destruct (Z.ltb_spec key (2 ^ 63)); [reflexivity|lia].
Qed.

Lemma validate_integer_out (key n : Z) :
  - 2 ^ 63 <= key < 2 ^ 63 ->
  key >= n \/ key < - n -> validate_integer key n = Raise IndexOutOfRangeError.
Proof.
  intros Hfit H. unfold validate_integer. rewrite (fits_index_true key Hfit).
  destruct (Z.geb_spec key n); [reflexivity|].
  destruct (Z.ltb_spec key (- n)); [reflexivity|lia].
Qed.

(** A row index and the same row counted from the end are one position. *)
Lemma validate_integer_from_end (k n : Z) :
  1 <= k <= n -> validate_integer (- k) n = validate_integer (n - k) n.
Proof.
  intros H. rewrite validate_integer_neg, validate_integer_nonneg by lia.
  do 2 f_equal. lia.
Qed.

Lemma iloc_from_end (df : DataFrame) (k col : Z) :
  1 <= k <= len df -> iloc df (- k) col = iloc df (len df - k) col.
Proof.
  intros H. unfold iloc. rewrite validate_integer_from_end by exact H. reflexivity.
Qed.

Lemma iloc_out (df : DataFrame) (idx col : Z) :
  - 2 ^ 63 <= idx < 2 ^ 63 ->
  idx >= len df \/ idx < - len df -> iloc df idx col = Raise IndexOutOfRangeError.
Proof.
  intros Hfit H. unfold iloc. rewrite validate_integer_out by assumption.
  reflexivity.
Qed.

Lemma manifest_row_iloc (df : DataFrame) (i : nat) (fname : string) (label : value) :
  manifest_row df i = Some (fname, label) ->
  Z.of_nat i < len df /\
  iloc df (Z.of_nat i) 0 = Ok (VStr fname) /\
  iloc df (Z.of_nat i) 1 = Ok label.
Proof.
  unfold manifest_row, iloc, len.
  destruct (Nat.leb_spec 2 (List.length (columns df))) as [Hc|]; [|discriminate].
  destruct (nth_error (data df) i) as [row|] eqn:Hrow; [|discriminate].
  assert (Hi : (i < List.length (data df))%nat)
    by (apply nth_error_Some; congruence).
  destruct (nth 0 row VNone) eqn:H0; try discriminate.
  intros [= <- <-].
  rewrite !validate_integer_nonneg by lia.
  rewrite Nat2Z.id. rewrite (nth_error_nth _ _ _ Hrow).
  cbn [Z.to_nat Pos.to_nat Pos.iter_op Nat.add].
  rewrite H0. repeat split; try reflexivity. lia.
Qed.

Section Codecs.

Variable decode_image : list Byte.byte -> option tensor.

Lemma len_run (st : State) :
  __len__ st = (Ok (len (image_labels (fst st))), st).
Proof. reflexivity. Qed.

(** The whole of [__getitem__] on a row that is a manifest entry. *)
Lemma getitem_row (s : CustomImageDatset) (w : World) (idx : Z)
    (fname : string) (label : value) :
  iloc (image_labels s) idx 0 = Ok (VStr fname) ->
  iloc (image_labels s) idx 1 = Ok label ->
  let p := Os.join (img_dir s) fname in
  __getitem__ decode_image idx (s, w) =
    match disk w p with
    | None =>
        (Raise SampleNotFoundError, (s, mkWorld (disk w) (log w ++ [ReadFile p])))
    | Some b =>
        let w' := mkWorld (disk w) ((log w ++ [ReadFile p]) ++ [DecodeImage p]) in
        match decode_image b with
        | None => (Raise ImageDecodeError, (s, w'))
        | Some img =>
            match apply_opt (transform s) (VTensor img) with
            | Raise e => (Raise e, (s, w'))
            | Ok f =>
                match apply_opt (target_transform s) label with
                | Raise e => (Raise e, (s, w'))
                | Ok l => (Ok (f, l), (s, w'))
                end
            end
        end
    end.
Proof.
  intros H0 H1 p.
  unfold __getitem__, self, on_snd, read_image, read_file, emit.
  unfold bind, gets, lift, ret.
  cbn [fst snd]. rewrite H0. cbn [Os.path_join]. fold p. cbn [disk log].
  destruct (disk w p) as [b|]; [|reflexivity].
  destruct (decode_image b) as [img|]; [|reflexivity].
  rewrite H1. unfold apply_opt.
  transform_cases (transform s) (VTensor img); try reflexivity;
    transform_cases (target_transform s) label; reflexivity.
Qed.

(** [__getitem__] looks at its index only through the two cells it reads. *)
Lemma getitem_ext (s : CustomImageDatset) (w : World) (idx idx' : Z) :
  iloc (image_labels s) idx 0 = iloc (image_labels s) idx' 0 ->
  iloc (image_labels s) idx 1 = iloc (image_labels s) idx' 1 ->
  __getitem__ decode_image idx (s, w) = __getitem__ decode_image idx' (s, w).
Proof.
  intros H0 H1. unfold __getitem__, self. unfold bind, gets, lift.
  cbn [fst snd]. rewrite H0, H1. reflexivity.
Qed.

Lemma getitem_out (s : CustomImageDatset) (w : World) (idx : Z) :
  - 2 ^ 63 <= idx < 2 ^ 63 ->
  idx >= len (image_labels s) \/ idx < - len (image_labels s) ->
  __getitem__ decode_image idx (s, w) = (Raise IndexOutOfRangeError, (s, w)).
Proof.
  intros Hfit H. unfold __getitem__, self. unfold bind, gets, lift.
  cbn [fst snd]. rewrite iloc_out by assumption. reflexivity.
Qed.

(** What a call leaves behind: the same object, the same disk, and the log
    grown by the events of the call. *)
Lemma getitem_frame (s : CustomImageDatset) (w : World) (idx : Z) :
  snd (__getitem__ decode_image idx (s, w)) =
    (s, mkWorld (disk w) (log w ++ call_events s (disk w) (GetItem idx))).
Proof.
  destruct w as [d l].
  unfold __getitem__, self, on_snd, read_image, read_file, emit, call_events.
  unfold bind, gets, lift, ret. cbn [fst snd disk log].
  destruct (iloc (image_labels s) idx 0) as [fname|e];
    [|cbn; rewrite app_nil_r; reflexivity].
  destruct (Os.path_join (img_dir s) fname) as [p|e];
    [|cbn; rewrite app_nil_r; reflexivity].
  cbn [disk log].
  destruct (d p) as [b|]; [|reflexivity].
  replace (l ++ [ReadFile p; DecodeImage p])
    with ((l ++ [ReadFile p]) ++ [DecodeImage p])
    by (rewrite <- app_assoc; reflexivity).
  destruct (decode_image b) as [img|]; [|reflexivity].
  destruct (iloc (image_labels s) idx 1) as [label|e]; [|reflexivity].
  transform_cases (transform s) (VTensor img); try reflexivity;
    transform_cases (target_transform s) label; reflexivity.
Qed.

Lemma run_call_frame (c : call) (s : CustomImageDatset) (w : World) :
  snd (run_call decode_image c (s, w)) =
    (s, mkWorld (disk w) (log w ++ call_events s (disk w) c)).
Proof.
  destruct c as [|idx]; unfold run_call.
  - rewrite len_run. cbn. rewrite app_nil_r. destruct w; reflexivity.
  - pose proof (getitem_frame s w idx) as H.
    destruct (__getitem__ decode_image idx (s, w)) as [r st']. exact H.
Qed.

Lemma run_calls_frame (cs : list call) (s : CustomImageDatset) (w : World) :
  snd (run_calls decode_image cs (s, w)) =
    (s, mkWorld (disk w) (log w ++ flat_map (call_events s (disk w)) cs)).
Proof.
  revert w; induction cs as [|c cs IH]; intros w.
  - cbn. rewrite app_nil_r. destruct w; reflexivity.
  - cbn [run_calls flat_map].
    pose proof (run_call_frame c s w) as Hc.
    destruct (run_call decode_image c (s, w)) as [o st']. cbn [snd] in Hc. subst st'.
    specialize (IH (mkWorld (disk w) (log w ++ call_events s (disk w) c))).
    destruct (run_calls decode_image cs _) as [os st'']. cbn [snd] in IH |- *.
    rewrite IH. cbn [disk log]. rewrite app_assoc. reflexivity.
Qed.

End Codecs.

Section Claims.

Variable parse_csv : list Byte.byte -> option DataFrame.
Variable decode_image : list Byte.byte -> option tensor.

Lemma init_run (annotation_file image_dir : string)
    (t u : option callable) (w : World) :
  __init__ parse_csv annotation_file image_dir t u w =
    (match manifest_at parse_csv (disk w) annotation_file with
     | Some df => Ok (mkDataset df image_dir t u)
     | None => Raise ManifestReadError
     end,
     mkWorld (disk w) (log w ++ [ReadFile annotation_file])).
Proof.
  unfold __init__, read_csv, read_file, manifest_at. unfold bind, lift, ret.
  destruct (disk w annotation_file) as [b|]; [|reflexivity].
  destruct (parse_csv b); reflexivity.
Qed.

Lemma getitem_loaded (s : CustomImageDatset) (w : World) (idx : Z)
    (fname : string) (label : value) (bytes : list Byte.byte) (img : tensor)
    (f l : value) :
  iloc (image_labels s) idx 0 = Ok (VStr fname) ->
  iloc (image_labels s) idx 1 = Ok label ->
  disk w (Os.join (img_dir s) fname) = Some bytes ->
  decode_image bytes = Some img ->
  apply_opt (transform s) (VTensor img) = Ok f ->
  apply_opt (target_transform s) label = Ok l ->
  __getitem__ decode_image idx (s, w) =
    (Ok (f, l),
     (s, mkWorld (disk w)
           (log w ++ [ReadFile (Os.join (img_dir s) fname);
                      DecodeImage (Os.join (img_dir s) fname)]))).
Proof.
  intros H0 H1 Hd Hi Hf Hl.
  rewrite (getitem_row decode_image s w idx fname label H0 H1).
  cbv zeta. rewrite Hd, Hi, Hf, Hl. rewrite <- app_assoc. reflexivity.
Qed.

Lemma is_ok_true {A} (r : result A) : is_ok r = true -> exists a, r = Ok a.
Proof. destruct r as [a|e]; [eauto|discriminate]. Qed.

(** What [__getitem__] returns on a manifest row, read off its result. *)
Lemma getitem_returns (s : CustomImageDatset) (w : World) (idx : Z)
    (fname : string) (label f l : value) :
  iloc (image_labels s) idx 0 = Ok (VStr fname) ->
  iloc (image_labels s) idx 1 = Ok label ->
  fst (__getitem__ decode_image idx (s, w)) = Ok (f, l) ->
  exists (bytes : list Byte.byte) (img : tensor),
    disk w (Os.join (img_dir s) fname) = Some bytes /\
    decode_image bytes = Some img /\
    apply_opt (transform s) (VTensor img) = Ok f /\
    apply_opt (target_transform s) label = Ok l.
Proof.
  intros H0 H1.
  rewrite (getitem_row decode_image s w idx fname label H0 H1). cbv zeta.
  destruct (disk w (Os.join (img_dir s) fname)) as [bytes|] eqn:Hd;
    [|discriminate].
  destruct (decode_image bytes) as [img|] eqn:Himg; [|discriminate].
  destruct (apply_opt (transform s) (VTensor img)) as [f'|] eqn:Hf;
    [|discriminate].
  destruct (apply_opt (target_transform s) label) as [l'|] eqn:Hl;
    [|discriminate].
  cbn [fst]. intros [= <- <-]. exists bytes, img. auto.
Qed.

Lemma startswith_sep_iff (b : string) :
  Os.startswith_sep b = true <-> exists rest, b = String "/" rest.
Proof.
  destruct b as [|c b]; cbn [Os.startswith_sep].
  - split; [discriminate|intros [rest H]; discriminate].
  - split.
    + intros H. apply Ascii.eqb_eq in H. subst c. exists b. reflexivity.
    + intros [rest H]. injection H as -> _. apply Ascii.eqb_refl.
Qed.

Lemma endswith_sep_iff (a : string) :
  Os.endswith_sep a = true <-> exists d, a = (d ++ "/")%string.
Proof.
  induction a as [|c a IH].
  - split; [discriminate|]. intros [d H]. destruct d; discriminate.
  - destruct a as [|c' a'].
    + cbn [Os.endswith_sep]. split.
      * intros H. apply Ascii.eqb_eq in H. subst c. exists EmptyString. reflexivity.
      * intros [d H]. destruct d as [|x d]; cbn in H.
        -- injection H as ->. apply Ascii.eqb_refl.
        -- injection H as _ H. destruct d; discriminate.
    + change (Os.endswith_sep (String c (String c' a')))
        with (Os.endswith_sep (String c' a')).
      rewrite IH. split.
      * intros [d H]. exists (String c d). cbn. rewrite H. reflexivity.
      * intros [d H]. destruct d as [|x d]; cbn in H; [discriminate|].
        injection H as _ H. exists d. exact H.
Qed.

(** [os.path.join] on two strings joins them as [joined] says. *)
Lemma join_joined (a b : string) : Os.joined a b (Os.join a b).
Proof.
  unfold Os.joined, Os.join. repeat split.
  - intros Habs. apply startswith_sep_iff in Habs. rewrite Habs. reflexivity.
  - intros Hrel Hdir.
    destruct (Os.startswith_sep b) eqn:Eb.
    + apply startswith_sep_iff in Eb. destruct Eb as [rest ->].
      exfalso. exact (Hrel rest eq_refl).
    + destruct Hdir as [->|Hd]; [reflexivity|].
      apply endswith_sep_iff in Hd. rewrite Hd, orb_true_r. reflexivity.
  - intros Hrel Hne Hd.
    destruct (Os.startswith_sep b) eqn:Eb.
    + apply startswith_sep_iff in Eb. destruct Eb as [rest ->].
      exfalso. exact (Hrel rest eq_refl).
    + destruct a as [|c a]; [contradiction|]. cbn [String.length Nat.eqb orb].
      destruct (Os.endswith_sep (String c a)) eqn:Ea.
      * apply endswith_sep_iff in Ea. destruct Ea as [d Ea].
        exfalso. exact (Hd d Ea).
      * reflexivity.
Qed.

(** C1, as the code has it. For every store and every valid index [i], the
    label [GetItem(i)] returns is the label of manifest row [i], with the
    label transform applied to it when one was configured at construction
    and the object is true for Python; a configured transform that is false
    is passed over and the label returned as the manifest has it.
    [GetItem(i)] does return whenever the image of the row loads and the
    transforms it applies return. *)
Theorem getitem_label (s : CustomImageDatset) (w : World) (i : Z)
    (fname : string) (label : value) :
  0 <= i < len (image_labels s) ->
  manifest_row (image_labels s) (Z.to_nat i) = Some (fname, label) ->
  (forall f l : value,
     fst (__getitem__ decode_image i (s, w)) = Ok (f, l) ->
     match target_transform s with
     | Some t => if truthy t then t label = Ok l else l = label
     | None => l = label
     end) /\
  (forall (bytes : list Byte.byte) (img : tensor),
     disk w (Os.join (img_dir s) fname) = Some bytes ->
     decode_image bytes = Some img ->
     is_ok (apply_opt (transform s) (VTensor img)) = true ->
     is_ok (apply_opt (target_transform s) label) = true ->
     is_ok (fst (__getitem__ decode_image i (s, w))) = true).
Proof.
  intros Hi Hrow.
  apply manifest_row_iloc in Hrow. rewrite Z2Nat.id in Hrow by lia.
  destruct Hrow as (_ & H0 & H1). split.
  - intros f l Hret.
    destruct (getitem_returns s w i fname label f l H0 H1 Hret)
      as (bytes & img & _ & _ & _ & Hl).
    unfold apply_opt in Hl.
    destruct (target_transform s) as [t|]; [destruct (truthy t)|]; congruence.
  - intros bytes img Hd Himg Hf Hl.
    apply is_ok_true in Hf; destruct Hf as [f Hf].
    apply is_ok_true in Hl; destruct Hl as [l Hl].
    rewrite (getitem_loaded s w i fname label bytes img f l); auto.
Qed.

(** C3, as the code has it. For every valid index [i], [GetItem(i)] reads
    the file whose path is the image directory and the file name of manifest
    row [i] joined, decodes it, and the feature it returns is the decoded
    array, or the feature transform applied to it when one was configured
    and the object is true for Python; a configured transform that is false
    is passed over.  [GetItem(i)] does return whenever that image loads and
    the transforms it applies return. *)
Theorem getitem_feature (s : CustomImageDatset) (w : World) (i : Z)
    (fname : string) (label : value) :
  0 <= i < len (image_labels s) ->
  manifest_row (image_labels s) (Z.to_nat i) = Some (fname, label) ->
  exists p : string,
    Os.joined (img_dir s) fname p /\
    (forall f l : value,
       fst (__getitem__ decode_image i (s, w)) = Ok (f, l) ->
       log (snd (snd (__getitem__ decode_image i (s, w))))
         = log w ++ [ReadFile p; DecodeImage p] /\
       exists (bytes : list Byte.byte) (img : tensor),
         disk w p = Some bytes /\
         decode_image bytes = Some img /\
         match transform s with
         | Some t => if truthy t then t (VTensor img) = Ok f else f = VTensor img
         | None => f = VTensor img
         end) /\
    (forall (bytes : list Byte.byte) (img : tensor),
       disk w p = Some bytes ->
       decode_image bytes = Some img ->
       is_ok (apply_opt (transform s) (VTensor img)) = true ->
       is_ok (apply_opt (target_transform s) label) = true ->
       is_ok (fst (__getitem__ decode_image i (s, w))) = true).
Proof.
  intros Hi Hrow.
  apply manifest_row_iloc in Hrow. rewrite Z2Nat.id in Hrow by lia.
  destruct Hrow as (_ & H0 & H1).
  exists (Os.join (img_dir s) fname). split; [apply join_joined|]. split.
  - intros f l Hret.
    destruct (getitem_returns s w i fname label f l H0 H1 Hret)
      as (bytes & img & Hd & Himg & Hf & Hl).
    split.
    + rewrite (getitem_loaded s w i fname label bytes img f l); auto.
    + exists bytes, img. repeat split; auto.
      unfold apply_opt in Hf.
      destruct (transform s) as [t|]; [destruct (truthy t)|]; congruence.
  - intros bytes img Hd Himg Hf Hl.
    apply is_ok_true in Hf; destruct Hf as [f Hf].
    apply is_ok_true in Hl; destruct Hl as [l Hl].
    rewrite (getitem_loaded s w i fname label bytes img f l); auto.
Qed.

(** C4, as the code has it. For every store of length [n], [GetItem(i)] with
    an index that fits a machine integer and has [i >= n] or [i < -n] fails
    with [IndexOutOfRangeError]: no sample is returned, no file is read, the
    store is as before.  [GetItem(10)] on a ten-row store is the case
    [i = n]. *)
Theorem getitem_index_out_of_range (s : CustomImageDatset) (w : World) (i : Z) :
  - 2 ^ 63 <= i < 2 ^ 63 ->
  i >= len (image_labels s) \/ i < - len (image_labels s) ->
  __getitem__ decode_image i (s, w) = (Raise IndexOutOfRangeError, (s, w)).
Proof.
  apply getitem_out.
Qed.

(** C10. For every non-empty store of length [n] and every [k] with
    [1 <= k <= n], [GetItem(-k)] is [GetItem(n - k)]: the negative index
    counts from the end and passes the bounds check of the rows, and on a
    manifest row whose image loads the sample of row [n - k] is returned. *)
Theorem getitem_negative_index (s : CustomImageDatset) (w : World) (k : Z) :
  1 <= k <= len (image_labels s) ->
  __getitem__ decode_image (- k) (s, w)
    = __getitem__ decode_image (len (image_labels s) - k) (s, w) /\
  validate_integer (- k) (len (image_labels s))
    = Ok (Z.to_nat (len (image_labels s) - k)) /\
  forall (fname : string) (label : value) (bytes : list Byte.byte)
         (img : tensor) (f l : value),
    manifest_row (image_labels s) (Z.to_nat (len (image_labels s) - k))
      = Some (fname, label) ->
    disk w (Os.join (img_dir s) fname) = Some bytes ->
    decode_image bytes = Some img ->
    apply_opt (transform s) (VTensor img) = Ok f ->
    apply_opt (target_transform s) label = Ok l ->
    fst (__getitem__ decode_image (- k) (s, w)) = Ok (f, l).
Proof.
  intros Hk.
  assert (E : __getitem__ decode_image (- k) (s, w)
              = __getitem__ decode_image (len (image_labels s) - k) (s, w))
    by (apply getitem_ext; apply iloc_from_end; exact Hk).
  split; [exact E|]. split.
  - rewrite validate_integer_neg by lia. do 2 f_equal. lia.
  - intros fname label bytes img f l Hrow Hd Himg Hf Hl. rewrite E.
    apply manifest_row_iloc in Hrow. rewrite Z2Nat.id in Hrow by lia.
    destruct Hrow as (_ & H0 & H1).
    rewrite (getitem_loaded s w _ fname label bytes img f l); auto.
Qed.

(** C5. Errors surface at their phase: construction fails, with
    [ManifestReadError], exactly when the manifest cannot be parsed; a row
    naming a file that is not there does not make construction fail, and
    [GetItem] on that row fails with [SampleNotFoundError]. *)
Theorem errors_by_phase (annotation_file image_dir : string)
    (t u : option callable) (w : World) :
  (fst (__init__ parse_csv annotation_file image_dir t u w) = Raise ManifestReadError
   <-> manifest_at parse_csv (disk w) annotation_file = None) /\
  (is_ok (fst (__init__ parse_csv annotation_file image_dir t u w)) = false
   <-> manifest_at parse_csv (disk w) annotation_file = None) /\
  forall (df : DataFrame) (i : nat) (fname : string) (label : value),
    manifest_at parse_csv (disk w) annotation_file = Some df ->
    manifest_row df i = Some (fname, label) ->
    disk w (Os.join image_dir fname) = None ->
    exists (s : CustomImageDatset) (w1 : World),
      __init__ parse_csv annotation_file image_dir t u w = (Ok s, w1) /\
      fst (__getitem__ decode_image (Z.of_nat i) (s, w1)) = Raise SampleNotFoundError.
Proof.
  rewrite init_run. cbn [fst].
  repeat split.
  - destruct (manifest_at parse_csv (disk w) annotation_file); [discriminate|reflexivity].
  - intros ->. reflexivity.
  - destruct (manifest_at parse_csv (disk w) annotation_file); [discriminate|reflexivity].
  - intros ->. reflexivity.
  - intros df i fname label Hm Hrow Hd. rewrite Hm.
    eexists _, _. split; [reflexivity|].
    apply manifest_row_iloc in Hrow. destruct Hrow as (_ & H0 & H1).
    rewrite (getitem_row decode_image (mkDataset df image_dir t u) _
               (Z.of_nat i) fname label H0 H1).
    cbn [img_dir disk]. rewrite Hd. reflexivity.
Qed.

(** C2. For every store constructed from a manifest, [Length()] returns the
    number of rows of the manifest, on the first call and after any sequence
    of calls on the store. *)
Theorem len_is_row_count (annotation_file image_dir : string)
    (t u : option callable) (w : World) (df : DataFrame) :
  manifest_at parse_csv (disk w) annotation_file = Some df ->
  exists (s : CustomImageDatset) (w1 : World),
    __init__ parse_csv annotation_file image_dir t u w = (Ok s, w1) /\
    forall cs : list call,
      fst (__len__ (snd (run_calls decode_image cs (s, w1))))
        = Ok (Z.of_nat (List.length (data df))).
Proof.
  intros Hm. rewrite init_run, Hm.
  eexists _, _. split; [reflexivity|].
  intros cs. rewrite run_calls_frame, len_run. reflexivity.
Qed.

(** C6. The store is immutable after construction and nothing is cached:
    after any sequence of [Length()] and [GetItem(i)] calls the object (the
    manifest, the image directory, both transforms) and the disk are as
    before, and the log has grown by the events of every call in turn, so
    each [GetItem] on a row reads and decodes its file again, however often
    the index was asked for before. *)
Theorem store_immutable (cs : list call) (s : CustomImageDatset) (w : World) :
  fst (snd (run_calls decode_image cs (s, w))) = s /\
  disk (snd (snd (run_calls decode_image cs (s, w)))) = disk w /\
  log (snd (snd (run_calls decode_image cs (s, w))))
    = log w ++ flat_map (call_events s (disk w)) cs /\
  forall (idx : Z) (m : nat),
    log (snd (snd (run_calls decode_image (repeat (GetItem idx) m) (s, w))))
      = log w ++ List.concat (repeat (call_events s (disk w) (GetItem idx)) m).
Proof.
  rewrite run_calls_frame. cbn [fst snd disk log].
  repeat split.
  intros idx m. rewrite run_calls_frame. cbn [snd log]. f_equal.
  induction m as [|m IH]; [reflexivity|].
  cbn [repeat flat_map List.concat]. rewrite IH. reflexivity.
Qed.

End Claims.

(** The theorems on the ten-row store of [Sample10]. *)

Lemma getitem_label_witness :
  exists f l : value,
    fst (__getitem__ Sample10.decode_image 3 (Sample10.store, Sample10.world))
      = Ok (f, l) /\
    Transform.target_transform (VInt 3) = Ok l.
Proof.
  destruct (getitem_label Sample10.decode_image Sample10.store Sample10.world 3
              "img3.png" (VInt 3)) as [Hlabel Hret];
    [cbn; lia | reflexivity |].
  specialize (Hret Sample10.image_bytes Sample10.pixel
                eq_refl eq_refl eq_refl eq_refl).
  destruct (fst (__getitem__ Sample10.decode_image 3
                   (Sample10.store, Sample10.world)))
    as [[f l]|e] eqn:E; [|discriminate Hret].
  exists f, l. split; [reflexivity|]. exact (Hlabel f l eq_refl).
Defined.

(** C1 as stated fails: a store configured with a label transform that
    Python finds false returns the label of the manifest, not what the
    transform makes of it. *)
Lemma getitem_label_counterexample :
  ~ (forall (decode_image : list Byte.byte -> option tensor)
            (s : CustomImageDatset) (w : World) (i : Z)
            (fname : string) (label : value) (t : callable) (f l : value),
        0 <= i < len (image_labels s) ->
        manifest_row (image_labels s) (Z.to_nat i) = Some (fname, label) ->
        target_transform s = Some t ->
        fst (__getitem__ decode_image i (s, w)) = Ok (f, l) ->
        t label = Ok l).
Proof.
  intros H.
  specialize (H Sample10.decode_image
                (mkDataset Sample10.frame "imgs" None (Some Edge.falsy))
                Sample10.world 3 "img3.png"%string (VInt 3) Edge.falsy
                (VTensor Sample10.pixel) (VInt 3)).
  assert (Hi : 0 <= 3 < len Sample10.frame) by (cbn; lia).
  specialize (H Hi eq_refl eq_refl eq_refl). discriminate H.
Qed.

Lemma getitem_feature_witness :
  exists f l : value,
    fst (__getitem__ Sample10.decode_image 3 (Sample10.store, Sample10.world))
      = Ok (f, l) /\
    f = VTensor Sample10.pixel /\
    log (snd (snd (__getitem__ Sample10.decode_image 3
                     (Sample10.store, Sample10.world))))
      = [ReadFile "imgs/img3.png"; DecodeImage "imgs/img3.png"].
Proof.
  destruct (getitem_feature Sample10.decode_image Sample10.store Sample10.world 3
              "img3.png" (VInt 3)) as (p & (_ & _ & Hp) & Hfeat & Hret);
    [cbn; lia | reflexivity |].
  assert (Ep : p = "imgs/img3.png"%string).
  { apply Hp.
    - intros rest. discriminate.
    - discriminate.
    - intros d E. destruct d as [|c0 [|c1 [|c2 [|c3 [|c4 d]]]]];
        discriminate E. }
  subst p.
  specialize (Hret Sample10.image_bytes Sample10.pixel
                eq_refl eq_refl eq_refl eq_refl).
  destruct (fst (__getitem__ Sample10.decode_image 3
                   (Sample10.store, Sample10.world)))
    as [[f l]|e] eqn:E; [|discriminate Hret].
  destruct (Hfeat f l eq_refl) as (Hlog & bytes & img & Hd & Himg & Hf).
  exists f, l. split; [reflexivity|]. split; [|exact Hlog].
  vm_compute in Hd. injection Hd as <-.
  vm_compute in Himg. injection Himg as <-.
  exact Hf.
Defined.

(** C3 as stated fails: a store configured with a feature transform that
    Python finds false returns the decoded array, not what the transform
    makes of it. *)
Lemma getitem_feature_counterexample :
  ~ (forall (decode_image : list Byte.byte -> option tensor)
            (s : CustomImageDatset) (w : World) (i : Z)
            (fname : string) (label : value) (t : callable)
            (bytes : list Byte.byte) (img : tensor) (f l : value),
        0 <= i < len (image_labels s) ->
        manifest_row (image_labels s) (Z.to_nat i) = Some (fname, label) ->
        transform s = Some t ->
        disk w (Os.join (img_dir s) fname) = Some bytes ->
        decode_image bytes = Some img ->
        fst (__getitem__ decode_image i (s, w)) = Ok (f, l) ->
        t (VTensor img) = Ok f).
Proof.
  intros H.
  specialize (H Sample10.decode_image
                (mkDataset Sample10.frame "imgs" (Some Edge.falsy) None)
                Sample10.world 3 "img3.png"%string (VInt 3) Edge.falsy
                Sample10.image_bytes Sample10.pixel
                (VTensor Sample10.pixel) (VInt 3)).
  assert (Hi : 0 <= 3 < len Sample10.frame) by (cbn; lia).
  specialize (H Hi eq_refl eq_refl eq_refl eq_refl eq_refl). discriminate H.
Qed.

Lemma getitem_index_out_of_range_witness :
  len (image_labels Sample10.store) = 10 /\
  __getitem__ Sample10.decode_image 10 (Sample10.store, Sample10.world)
    = (Raise IndexOutOfRangeError, (Sample10.store, Sample10.world)).
Proof.
  split; [reflexivity|].
  apply (getitem_index_out_of_range Sample10.decode_image Sample10.store
           Sample10.world 10).
  - lia.
  - left. cbn. lia.
Defined.

(** C4 as stated fails: [-2] is outside [0 <= i < 10], and [GetItem(-2)] on
    the ten-row store returns the sample of row 8. *)
Lemma getitem_invalid_index_counterexample :
  ~ (forall (decode_image : list Byte.byte -> option tensor)
            (s : CustomImageDatset) (w : World) (i : Z),
        ~ (0 <= i < len (image_labels s)) ->
        fst (__getitem__ decode_image i (s, w)) = Raise IndexOutOfRangeError).
Proof.
  intros H.
  specialize (H Sample10.decode_image Sample10.store Sample10.world (-2)).
  assert (Hi : ~ (0 <= -2 < len (image_labels Sample10.store))) by (cbn; lia).
  specialize (H Hi). vm_compute in H. discriminate H.
Qed.

Lemma getitem_negative_index_witness :
  exists l : value,
    Transform.target_transform (VInt 5) = Ok l /\
    fst (__getitem__ Sample10.decode_image (- 2) (Sample10.store, Sample10.world))
      = Ok (VTensor Sample10.pixel, l).
Proof.
  eexists. split; [vm_compute; reflexivity|].
  destruct (getitem_negative_index Sample10.decode_image Sample10.store
              Sample10.world 2) as (_ & _ & H); [cbn; lia|].
  apply (H "img8.png"%string (VInt 5) Sample10.image_bytes Sample10.pixel);
    reflexivity.
Defined.

Lemma errors_by_phase_witness :
  exists (s : CustomImageDatset) (w1 : World),
    __init__ Sample10.parse_csv "labels.csv" "imgs" None None Sample10.world
      = (Ok s, w1) /\
    fst (__getitem__ Sample10.decode_image 9 (s, w1)) = Raise SampleNotFoundError.
Proof.
  destruct (errors_by_phase Sample10.parse_csv Sample10.decode_image
              "labels.csv" "imgs" None None Sample10.world) as (_ & _ & H).
  apply (H Sample10.frame 9%nat "img9.png"%string (VInt 5)); reflexivity.
Defined.

Lemma len_is_row_count_witness :
  exists (s : CustomImageDatset) (w1 : World),
    __init__ Sample10.parse_csv "labels.csv" "imgs" None None Sample10.world
      = (Ok s, w1) /\
    forall cs : list call,
      fst (__len__ (snd (run_calls Sample10.decode_image cs (s, w1)))) = Ok 10.
Proof.
  apply (len_is_row_count Sample10.parse_csv Sample10.decode_image
           "labels.csv" "imgs" None None Sample10.world Sample10.frame).
  reflexivity.
Defined.

End DatasetFacts.

(** ** The batch iterator *)

Module LoaderFacts.

Import Pandas Datasets Loader.

Local Open Scope nat_scope.

Lemma insert_at_length (k x : nat) (l : list nat) :
  List.length (insert_at k x l) = S (List.length l).
Proof.
  revert k; induction l as [|y l IH]; intros [|k]; cbn; auto.
Qed.

Lemma randperm_length (draw : nat -> nat) (n : nat) :
  List.length (randperm draw n) = n.
Proof.
  induction n as [|n IH]; cbn; [reflexivity|].
  rewrite insert_at_length, IH. reflexivity.
Qed.

Lemma insert_at_perm (k x : nat) (l : list nat) :
  Permutation (insert_at k x l) (x :: l).
Proof.
  revert k; induction l as [|y l IH]; intros [|k]; cbn; auto.
  rewrite IH. apply perm_swap.
Qed.

(** The shuffled order is a permutation of the indices, whatever is drawn. *)
Lemma randperm_perm (draw : nat -> nat) (n : nat) :
  Permutation (randperm draw n) (seq 0 n).
Proof.
  induction n as [|n IH]; cbn [randperm]; [constructor|].
  rewrite insert_at_perm, IH, seq_S. cbn.
  apply Permutation_cons_append.
Qed.

Lemma index_order_length (dl : DataLoader) (draw : nat -> nat) (n : nat) :
  List.length (index_order dl draw n) = n.
Proof.
  unfold index_order. destruct (shuffle dl).
  - apply randperm_length.
  - apply length_seq.
Qed.

(** Grouping keeps the indices and their order. *)
Lemma batches_from_concat (b : nat) (order batch : list nat) :
  List.concat (batches_from b order batch) = batch ++ order.
Proof.
  revert batch; induction order as [|idx order IH]; intros batch; cbn [batches_from].
  - destruct batch; cbn; rewrite ?app_nil_r; reflexivity.
  - destruct (List.length (batch ++ [idx]) =? b).
    + cbn [List.concat]. rewrite IH. cbn. rewrite <- app_assoc. reflexivity.
    + rewrite IH, <- app_assoc. reflexivity.
Qed.

Lemma batches_from_sizes (b : nat) (order batch : list nat) :
  List.length batch < b ->
  map (@List.length nat) (batches_from b order batch)
    = sizes b (List.length batch + List.length order).
Proof.
  revert batch; induction order as [|idx order IH]; intros batch Hb;
    cbn [batches_from List.length].
  - rewrite Nat.add_0_r. unfold sizes.
    rewrite Nat.div_small, Nat.mod_small by exact Hb. cbn [repeat app].
    destruct batch; reflexivity.
  - rewrite length_app. cbn [List.length].
    destruct (Nat.eqb_spec (List.length batch + 1) b) as [E|E].
    + cbn [map]. rewrite length_app. cbn [List.length]. rewrite E.
      rewrite (IH []) by (cbn; lia). cbn [List.length Nat.add].
      unfold sizes.
      replace (List.length batch + S (List.length order))
        with (List.length order + 1 * b) by lia.
      rewrite Nat.div_add, Nat.Div0.mod_add by lia.
      rewrite Nat.add_1_r. reflexivity.
    + rewrite (IH (batch ++ [idx])) by (rewrite length_app; cbn; lia).
      rewrite length_app. cbn [List.length]. f_equal. lia.
Qed.

Lemma sizes_length (b n : nat) :
  0 < b -> List.length (sizes b n) = (n + b - 1) / b.
Proof.
  intros Hb. unfold sizes. rewrite length_app, repeat_length.
  pose proof (Nat.div_mod_eq n b) as E.
  pose proof (Nat.mod_upper_bound n b ltac:(lia)) as Hr.
  destruct (Nat.eqb_spec (n mod b) 0) as [Hz|Hz]; cbn [List.length].
  - apply (Nat.div_unique _ _ _ (b - 1)); lia.
  - apply (Nat.div_unique _ _ _ (n mod b - 1)); lia.
Qed.

Lemma sizes_removelast (b n : nat) :
  Forall (fun k => k = b) (removelast (sizes b n)).
Proof.
  unfold sizes. destruct (n mod b =? 0).
  - rewrite app_nil_r.
    apply Forall_forall. intros k Hk.
    assert (Hin : In k (repeat b (n / b))).
    { destruct (repeat b (n / b)) as [|x l] eqn:E; [contradiction|].
      rewrite <- E in *.
      rewrite (app_removelast_last 0 (l := repeat b (n / b))) by congruence.
      apply in_or_app; left; exact Hk. }
    apply repeat_spec in Hin. exact Hin.
  - rewrite removelast_last. apply Forall_forall. intros k Hk.
    apply repeat_spec in Hk. exact Hk.
Qed.

Lemma sizes_last (b n : nat) :
  0 < b -> 0 < n ->
  last (sizes b n) 0 = if n mod b =? 0 then b else n mod b.
Proof.
  intros Hb Hn. unfold sizes.
  destruct (Nat.eqb_spec (n mod b) 0) as [Hz|Hz].
  - rewrite app_nil_r.
    destruct (n / b) as [|q] eqn:Eq.
    + pose proof (Nat.div_mod_eq n b). lia.
    + replace (S q) with (q + 1) by lia.
      rewrite repeat_app. cbn [repeat]. apply last_last.
  - apply last_last.
Qed.

Lemma map_length_removelast (l : list (list nat)) :
  map (@List.length nat) (removelast l) = removelast (map (@List.length nat) l).
Proof.
  induction l as [|x l IH]; [reflexivity|].
  destruct l as [|y l]; [reflexivity|].
  cbn [removelast map] in *. rewrite IH. reflexivity.
Qed.

Lemma length_last (l : list (list nat)) :
  List.length (last l []) = last (map (@List.length nat) l) 0.
Proof.
  induction l as [|x l IH]; [reflexivity|].
  destruct l as [|y l]; [reflexivity|].
  cbn [last map] in *. exact IH.
Qed.

Lemma epoch_plan_run (dl : DataLoader) (draw : nat -> nat) (st : State) :
  epoch_plan dl draw st =
    (Ok (epoch_batches dl draw (List.length (data (image_labels (fst st))))), st).
Proof.
  unfold epoch_plan, __len__, self, len. unfold bind, gets, ret.
  rewrite Nat2Z.id. reflexivity.
Qed.

Lemma epoch_batches_sizes (dl : DataLoader) (draw : nat -> nat) (n : nat) :
  map (@List.length nat) (epoch_batches dl draw n)
    = sizes (Pos.to_nat (batch_size dl)) n.
Proof.
  unfold epoch_batches.
  rewrite batches_from_sizes by (cbn; apply Pos2Nat.is_pos).
  rewrite index_order_length. reflexivity.
Qed.

(** C7. For every store of length [n] and every iterator with
    [shuffle = false], the batches of one epoch, taken in order, hold the
    indices 0, 1, ..., n-1 in ascending order, each exactly once. *)
Theorem epoch_visits_ascending (dl : DataLoader) (draw : nat -> nat)
    (s : CustomImageDatset) (w : World) :
  shuffle dl = false ->
  exists bs : list (list nat),
    fst (epoch_plan dl draw (s, w)) = Ok bs /\
    List.concat bs = seq 0 (List.length (data (image_labels s))).
Proof.
  intros Hs. rewrite epoch_plan_run. cbn [fst].
  eexists. split; [reflexivity|].
  unfold epoch_batches, index_order. rewrite Hs.
  apply batches_from_concat.
Qed.

Lemma epoch_visits_ascending_witness :
  exists bs : list (list nat),
    fst (epoch_plan (mkLoader 4 false) (fun _ => 0)
           (Sample10.store, Sample10.world)) = Ok bs /\
    List.concat bs = [0; 1; 2; 3; 4; 5; 6; 7; 8; 9].
Proof.
  apply (epoch_visits_ascending (mkLoader 4 false) (fun _ => 0)
           Sample10.store Sample10.world).
  reflexivity.
Defined.

(** C8. For every store of length [n] and every batch size [b > 0], one
    epoch yields exactly ceil(n/b) batches; every batch but the last has size
    [b], and the last has size [n mod b] when [b] does not divide [n], else
    [b].  A ten-row store with batch size 4 and no shuffling yields the
    batches [0..3], [4..7], [8..9]. *)
Theorem epoch_batch_sizes (dl : DataLoader) (draw : nat -> nat)
    (s : CustomImageDatset) (w : World) :
  let b := Pos.to_nat (batch_size dl) in
  let n := List.length (data (image_labels s)) in
  exists bs : list (list nat),
    fst (epoch_plan dl draw (s, w)) = Ok bs /\
    List.length bs = (n + b - 1) / b /\
    Forall (fun batch => List.length batch = b) (removelast bs) /\
    (0 < n -> List.length (last bs []) = if n mod b =? 0 then b else n mod b) /\
    (n = 10 -> batch_size dl = 4%positive -> shuffle dl = false ->
     bs = [[0; 1; 2; 3]; [4; 5; 6; 7]; [8; 9]]).
Proof.
  intros b n. rewrite epoch_plan_run. cbn [fst]. fold n.
  pose proof (epoch_batches_sizes dl draw n) as Hsz. fold b in Hsz.
  assert (Hb : 0 < b) by apply Pos2Nat.is_pos.
  eexists. split; [reflexivity|]. repeat split.
  - rewrite <- (length_map (@List.length nat)), Hsz. apply sizes_length, Hb.
  - apply Forall_forall. intros batch Hin.
    pose proof (sizes_removelast b n) as Hall.
    rewrite <- Hsz, <- map_length_removelast in Hall.
    rewrite Forall_forall in Hall. apply Hall.
    apply in_map. exact Hin.
  - intros Hn. rewrite length_last, Hsz. apply sizes_last; assumption.
  - intros Hn Hbs Hsh. destruct dl as [bsz sh]. cbn in Hbs, Hsh. subst bsz sh.
    rewrite Hn. reflexivity.
Qed.

Lemma epoch_batch_sizes_witness :
  fst (epoch_plan (mkLoader 4 false) (fun _ => 0) (Sample10.store, Sample10.world))
    = Ok [[0; 1; 2; 3]; [4; 5; 6; 7]; [8; 9]].
Proof.
  destruct (epoch_batch_sizes (mkLoader 4 false) (fun _ => 0)
              Sample10.store Sample10.world) as (bs & Hrun & _ & _ & _ & H10).
  rewrite Hrun. f_equal. apply H10; reflexivity.
Defined.

End LoaderFacts.

(** ** Runs on concrete inputs *)

Module Runs.

Import Pandas Datasets Loader.

Local Open Scope string_scope.

Example join_plain : Os.join "imgs" "img3.png" = "imgs/img3.png".
Proof. reflexivity. Qed.

Example join_trailing_sep : Os.join "imgs/" "img3.png" = "imgs/img3.png".
Proof. reflexivity. Qed.

Example join_absolute : Os.join "imgs" "/tmp/img3.png" = "/tmp/img3.png".
Proof. reflexivity. Qed.

Example join_empty_dir : Os.join "" "img3.png" = "img3.png".
Proof. reflexivity. Qed.

Example one_hot_3 :
  Transform.target_transform (VInt 3) =
    Ok (VTensor (mkTensor float32 [10%nat]
      (map SFloat
         [S754_zero false; S754_zero false; S754_zero false;
          S754_finite false 8388608 (-23);
          S754_zero false; S754_zero false; S754_zero false;
          S754_zero false; S754_zero false; S754_zero false]))).
Proof. reflexivity. Qed.

Example one_hot_10 : Transform.target_transform (VInt 10) = Raise ScatterIndexError.
Proof. reflexivity. Qed.

Example one_hot_string : Transform.target_transform (VStr "3") = Raise TypeError.
Proof. reflexivity. Qed.

Example iloc_row_3 : iloc Sample10.frame 3 1 = Ok (VInt 3).
Proof. reflexivity. Qed.

Example iloc_last_row : iloc Sample10.frame (-1) 0 = Ok (VStr "img9.png").
Proof. reflexivity. Qed.

Example iloc_row_10 : iloc Sample10.frame 10 0 = Raise IndexOutOfRangeError.
Proof. reflexivity. Qed.

Example iloc_row_minus_11 : iloc Sample10.frame (-11) 0 = Raise IndexOutOfRangeError.
Proof. reflexivity. Qed.

Example getitem_row_6 :
  exists l : value,
    Transform.target_transform (VInt 7) = Ok l /\
    __getitem__ Sample10.decode_image 6 (Sample10.store, Sample10.world) =
      (Ok (VTensor Sample10.pixel, l),
       (Sample10.store,
        mkWorld Sample10.files
          [ReadFile "imgs/img6.png"; DecodeImage "imgs/img6.png"])).
Proof. eexists. split; reflexivity. Qed.

Example getitem_missing_file :
  __getitem__ Sample10.decode_image 9 (Sample10.store, Sample10.world) =
    (Raise SampleNotFoundError,
     (Sample10.store, mkWorld Sample10.files [ReadFile "imgs/img9.png"])).
Proof. reflexivity. Qed.

Example getitem_twice_reads_twice :
  log (snd (snd (run_calls Sample10.decode_image [GetItem 6; Length; GetItem 6]
                   (Sample10.store, Sample10.world)))) =
    [ReadFile "imgs/img6.png"; DecodeImage "imgs/img6.png";
     ReadFile "imgs/img6.png"; DecodeImage "imgs/img6.png"].
Proof. reflexivity. Qed.

Example batches_10_by_4 :
  batches_from 4 (seq 0 10) [] = [[0; 1; 2; 3]; [4; 5; 6; 7]; [8; 9]]%nat.
Proof. reflexivity. Qed.

Example batches_8_by_4 :
  batches_from 4 (seq 0 8) [] = [[0; 1; 2; 3]; [4; 5; 6; 7]]%nat.
Proof. reflexivity. Qed.

Example batches_empty_store : batches_from 4 (seq 0 0) [] = [].
Proof. reflexivity. Qed.

Example shuffled_epoch :
  epoch_batches (mkLoader 2 true) (fun m => (m mod 2)%nat) 5
    = [[4; 2]; [3; 0]; [1]]%nat.
Proof. reflexivity. Qed.

End Runs.

(** * Further properties of the code *)

(** ** The one-hot transform off its ten classes *)

Module TransformEdges.

Import Transform.

Lemma target_transform_outside (y : Z) :
  - 2 ^ 63 <= y < 2 ^ 63 ->
  ~ (0 <= y < 10) ->
  target_transform (VInt y) = Raise ScatterIndexError.
Proof.
  intros Hy Hout. unfold target_transform, Lambda. cbn [__call__].
  rewrite TransformFacts.torch_tensor_int64 by exact Hy.
  unfold scatter_, zeros; cbn [t_shape t_dtype t_data Z.eqb orb zero].
  change (cast float32 1) with (Ok (SFloat (SFone 24 128))).
  unfold scatter_entries. rewrite repeat_length.
  destruct (Z.leb_spec 0 y); [|reflexivity].
  destruct (Z.ltb_spec y (Z.of_nat 10)); [lia|reflexivity].
Qed.

Lemma target_transform_overflow (y : Z) :
  ~ (- 2 ^ 63 <= y < 2 ^ 63) ->
  target_transform (VInt y) = Raise OverflowError.
Proof.
  intros Hy. unfold target_transform, Lambda, torch_tensor. cbn [__call__].
  destruct (Z.leb_spec (- 2 ^ 63) y); [|reflexivity].
  destruct (Z.ltb_spec y (2 ^ 63)); [lia|reflexivity].
Qed.

Lemma target_transform_ok_iff (y : Z) :
  is_ok (target_transform (VInt y)) = true <-> 0 <= y < 10.
Proof.
  split.
  - intros Hok.
    destruct (Z_le_dec 0 y) as [H0|H0]; [destruct (Z_lt_dec y 10) as [H1|H1]|];
      [lia| |].
    + destruct (Z_lt_dec y (2 ^ 63)).
      * rewrite target_transform_outside in Hok by lia. discriminate.
      * rewrite target_transform_overflow in Hok by lia. discriminate.
    + destruct (Z_le_dec (- 2 ^ 63) y).
      * rewrite target_transform_outside in Hok by lia. discriminate.
      * rewrite target_transform_overflow in Hok by lia. discriminate.
  - intros Hy. rewrite TransformFacts.target_transform_int by exact Hy. reflexivity.
Qed.

(** X1. The transform accepts an integer label exactly when it is one of the
    ten classes 0..9; any other label that fits [int64], negative ones
    included, makes [scatter_] raise its index error. *)
Theorem target_transform_domain (y : Z) :
  (is_ok (target_transform (VInt y)) = true <-> 0 <= y < 10) /\
  (- 2 ^ 63 <= y < 2 ^ 63 -> ~ (0 <= y < 10) ->
   target_transform (VInt y) = Raise ScatterIndexError).
Proof.
  split; [apply target_transform_ok_iff | apply target_transform_outside].
Qed.

Lemma target_transform_domain_witness :
  target_transform (VInt 10) = Raise ScatterIndexError /\
  target_transform (VInt (- 1)) = Raise ScatterIndexError.
Proof.
  split.
  - apply (proj2 (target_transform_domain 10)); lia.
  - apply (proj2 (target_transform_domain (- 1))); lia.
Defined.

(** X2. The encoding loses nothing: two integer labels with the same
    encoding are the same label. *)
Theorem target_transform_injective (y1 y2 : Z) (v : value) :
  target_transform (VInt y1) = Ok v ->
  target_transform (VInt y2) = Ok v ->
  y1 = y2.
Proof.
  intros H1 H2.
  assert (R1 : 0 <= y1 < 10).
  { apply target_transform_ok_iff. rewrite H1. reflexivity. }
  assert (R2 : 0 <= y2 < 10).
  { apply target_transform_ok_iff. rewrite H2. reflexivity. }
  rewrite TransformFacts.target_transform_int in H1, H2 by assumption.
  rewrite <- H2 in H1.
  assert (E : set_nth (repeat (SFloat (S754_zero false)) 10) (Z.to_nat y1)
                (SFloat (SFone 24 128))
              = set_nth (repeat (SFloat (S754_zero false)) 10) (Z.to_nat y2)
                (SFloat (SFone 24 128))) by congruence.
  assert (N : nth (Z.to_nat y1)
                (set_nth (repeat (SFloat (S754_zero false)) 10) (Z.to_nat y1)
                   (SFloat (SFone 24 128))) (SInt 0)
              = nth (Z.to_nat y1)
                (set_nth (repeat (SFloat (S754_zero false)) 10) (Z.to_nat y2)
                   (SFloat (SFone 24 128))) (SInt 0))
    by (rewrite E; reflexivity).
  rewrite !TransformFacts.nth_set_nth in N by (rewrite repeat_length; lia).
  rewrite Nat.eqb_refl in N.
  destruct (Nat.eqb_spec (Z.to_nat y1) (Z.to_nat y2)) as [Eq|Ne]; [lia|].
  rewrite nth_repeat_lt in N by lia. discriminate N.
Qed.

Lemma target_transform_injective_witness :
  exists v : value, target_transform (VInt 3) = Ok v /\ 3 = 3.
Proof.
  eexists. split; [reflexivity|].
  eapply (target_transform_injective 3 3); reflexivity.
Defined.

End TransformEdges.

(** ** The edges of the custom dataset *)

Module DatasetEdges.

Import Pandas Datasets.

(** The bounds check, solved: the accepted keys and the position each one
    names. *)
Lemma validate_integer_ok (key n : Z) (r : nat) :
  validate_integer key n = Ok r <->
  - n <= key < n /\ r = Z.to_nat (key mod n).
Proof.
  unfold validate_integer.
  destruct (Z.geb_spec key n) as [Hge|Hlt]; cbn [orb].
  - destruct (fits_index key); (split; [discriminate|lia]).
  - destruct (Z.ltb_spec key (- n)) as [Hlo|Hlo].
    + destruct (fits_index key); (split; [discriminate|lia]).
    + destruct (Z.ltb_spec key 0) as [Hneg|Hpos].
      * assert (E : key mod n = key + n).
        { rewrite <- (Z.mod_add key 1 n) by lia.
          rewrite Z.mod_small by lia. lia. }
        rewrite E. split.
        -- intros [= <-]. split; [lia|reflexivity].
        -- intros [_ ->]. reflexivity.
      * rewrite Z.mod_small by lia. split.
        -- intros [= <-]. split; [lia|reflexivity].
        -- intros [_ ->]. reflexivity.
Qed.

(** The two cells [__getitem__] reads are there, the first a string, exactly
    when the index passes the bounds check and its row is a manifest entry. *)
Lemma iloc_manifest_row (df : DataFrame) (idx : Z) (fname : string) (label : value) :
  (iloc df idx 0 = Ok (VStr fname) /\ iloc df idx 1 = Ok label) <->
  (- len df <= idx < len df /\
   manifest_row df (Z.to_nat (idx mod len df)) = Some (fname, label)).
Proof.
  split.
  - intros [H0 H1]. unfold iloc in H0, H1.
    destruct (validate_integer idx (len df)) as [r|] eqn:Hr; [|discriminate].
    apply validate_integer_ok in Hr. destruct Hr as [Hidx ->].
    split; [exact Hidx|].
    destruct (validate_integer 1 (Z.of_nat (List.length (columns df))))
      as [c1|] eqn:Hc1; [|discriminate].
    apply validate_integer_ok in Hc1. destruct Hc1 as [Hcols ->].
    destruct (validate_integer 0 (Z.of_nat (List.length (columns df))))
      as [c0|] eqn:Hc0; [|discriminate].
    apply validate_integer_ok in Hc0. destruct Hc0 as [_ ->].
    rewrite Z.mod_0_l in H0 by lia. rewrite Z.mod_small in H1 by lia.
    change (Z.to_nat 0) with 0%nat in H0. change (Z.to_nat 1) with 1%nat in H1.
    injection H0 as H0. injection H1 as H1.
    unfold manifest_row.
    destruct (Nat.leb_spec 2 (List.length (columns df))); [|lia].
    assert (Hlt : (Z.to_nat (idx mod len df) < List.length (data df))%nat).
    { unfold len in *. pose proof (Z.mod_pos_bound idx (Z.of_nat (List.length (data df)))).
      lia. }
    rewrite (nth_error_nth' _ [] Hlt). rewrite H0, H1. reflexivity.
  - intros [Hidx Hrow].
    apply DatasetFacts.manifest_row_iloc in Hrow.
    destruct Hrow as (_ & H0 & H1).
    assert (Hm : 0 <= idx mod len df < len df)
      by (apply Z.mod_pos_bound; lia).
    rewrite Z2Nat.id in H0, H1 by lia.
    destruct (Z_lt_dec idx 0) as [Hneg|Hpos].
    + assert (E : idx mod len df = len df - (- idx)).
      { rewrite <- (Z.mod_add idx 1 (len df)) by lia.
        rewrite Z.mod_small by lia. lia. }
      rewrite E in H0, H1.
      replace idx with (- (- idx)) by lia.
      rewrite !DatasetFacts.iloc_from_end by lia. auto.
    + rewrite Z.mod_small in H0, H1 by lia. auto.
Qed.

Section Codecs.

Variable parse_csv : list Byte.byte -> option DataFrame.
Variable decode_image : list Byte.byte -> option tensor.

(** [__getitem__] step by step, each failure with the state it leaves. *)
Lemma getitem_unfold (s : CustomImageDatset) (w : World) (idx : Z) :
  __getitem__ decode_image idx (s, w) =
    match iloc (image_labels s) idx 0 with
    | Raise e => (Raise e, (s, w))
    | Ok v =>
        match Os.path_join (img_dir s) v with
        | Raise e => (Raise e, (s, w))
        | Ok p =>
            match disk w p with
            | None =>
                (Raise SampleNotFoundError,
                 (s, mkWorld (disk w) (log w ++ [ReadFile p])))
            | Some b =>
                let w' := mkWorld (disk w) (log w ++ [ReadFile p; DecodeImage p]) in
                match decode_image b with
                | None => (Raise ImageDecodeError, (s, w'))
                | Some img =>
                    match iloc (image_labels s) idx 1 with
                    | Raise e => (Raise e, (s, w'))
                    | Ok label =>
                        match apply_opt (transform s) (VTensor img) with
                        | Raise e => (Raise e, (s, w'))
                        | Ok f =>
                            match apply_opt (target_transform s) label with
                            | Raise e => (Raise e, (s, w'))
                            | Ok l => (Ok (f, l), (s, w'))
                            end
                        end
                    end
                end
            end
        end
    end.
Proof.
  destruct w as [d l].
  unfold __getitem__, self, on_snd, read_image, read_file, emit.
  unfold bind, gets, lift, ret. cbn [fst snd disk log].
  destruct (iloc (image_labels s) idx 0) as [v|e]; [|reflexivity].
  destruct (Os.path_join (img_dir s) v) as [p|e]; [|reflexivity].
  cbn [disk log].
  destruct (d p) as [b|]; [|reflexivity].
  cbv zeta.
  replace (l ++ [ReadFile p; DecodeImage p])
    with ((l ++ [ReadFile p]) ++ [DecodeImage p])
    by (rewrite <- app_assoc; reflexivity).
  destruct (decode_image b) as [img|]; [|reflexivity].
  destruct (iloc (image_labels s) idx 1) as [label|e]; [|reflexivity].
  unfold apply_opt.
  DatasetFacts.transform_cases (transform s) (VTensor img); try reflexivity;
    DatasetFacts.transform_cases (target_transform s) label; reflexivity.
Qed.

Lemma row_cells (df : DataFrame) (i : Z) (fname : string) (label : value) :
  0 <= i < len df ->
  manifest_row df (Z.to_nat i) = Some (fname, label) ->
  iloc df i 0 = Ok (VStr fname) /\ iloc df i 1 = Ok label.
Proof.
  intros Hi Hrow. apply DatasetFacts.manifest_row_iloc in Hrow.
  rewrite Z2Nat.id in Hrow by lia. tauto.
Qed.

(** X3. When [__getitem__] returns: exactly when the index lies in
    [-n <= idx < n], the row it names (counting from the end when negative)
    is a manifest entry, its file is on disk and decodes, and both
    transforms return.  Every other call raises. *)
Theorem getitem_ok_iff (s : CustomImageDatset) (w : World) (idx : Z) :
  is_ok (fst (__getitem__ decode_image idx (s, w))) = true <->
  - len (image_labels s) <= idx < len (image_labels s) /\
  exists (fname : string) (label : value) (bytes : list Byte.byte) (img : tensor),
    manifest_row (image_labels s) (Z.to_nat (idx mod len (image_labels s)))
      = Some (fname, label) /\
    disk w (Os.join (img_dir s) fname) = Some bytes /\
    decode_image bytes = Some img /\
    is_ok (apply_opt (transform s) (VTensor img)) = true /\
    is_ok (apply_opt (target_transform s) label) = true.
Proof.
  rewrite getitem_unfold. split.
  - destruct (iloc (image_labels s) idx 0) as [v|] eqn:H0; [|discriminate].
    destruct v as [|z|fname|t]; cbn [Os.path_join]; try discriminate.
    destruct (disk w (Os.join (img_dir s) fname)) as [bytes|] eqn:Hd;
      [|discriminate].
    cbv zeta.
    destruct (decode_image bytes) as [img|] eqn:Himg; [|discriminate].
    destruct (iloc (image_labels s) idx 1) as [label|] eqn:H1; [|discriminate].
    destruct (apply_opt (transform s) (VTensor img)) as [f|] eqn:Hf;
      [|discriminate].
    destruct (apply_opt (target_transform s) label) as [l|] eqn:Hl;
      [|discriminate].
    intros _.
    destruct (proj1 (iloc_manifest_row _ idx fname label) (conj H0 H1))
      as [Hidx Hrow].
    split; [exact Hidx|].
    exists fname, label, bytes, img. rewrite Hf, Hl. auto.
  - intros (Hidx & fname & label & bytes & img & Hrow & Hd & Himg & Hf & Hl).
    destruct (proj2 (iloc_manifest_row _ idx fname label) (conj Hidx Hrow))
      as [H0 H1].
    rewrite H0. cbn [Os.path_join]. rewrite Hd. cbv zeta. rewrite Himg, H1.
    destruct (apply_opt (transform s) (VTensor img)); [|discriminate].
    destruct (apply_opt (target_transform s) label); [|discriminate].
    reflexivity.
Qed.

(** X4. A file-name cell that is not a string (a column of numbers, a
    missing value) makes [__getitem__] raise [TypeError] at the path join:
    no file is read and the state is as before. *)
Theorem getitem_non_string_name (s : CustomImageDatset) (w : World) (idx : Z)
    (v : value) :
  iloc (image_labels s) idx 0 = Ok v ->
  (forall fname : string, v <> VStr fname) ->
  __getitem__ decode_image idx (s, w) = (Raise TypeError, (s, w)).
Proof.
  intros H0 Hv. rewrite getitem_unfold, H0.
  destruct v as [|z|fname|t]; try reflexivity.
  exfalso. exact (Hv fname eq_refl).
Qed.

(** X5. The label is looked up after the image is loaded: on a frame with
    fewer than two columns, a call on a row whose image is on disk and
    decodes reads and decodes the file and only then raises
    [IndexOutOfRangeError]. *)
Theorem getitem_missing_label_column (s : CustomImageDatset) (w : World)
    (idx : Z) (fname : string) (bytes : list Byte.byte) (img : tensor) :
  iloc (image_labels s) idx 0 = Ok (VStr fname) ->
  (List.length (columns (image_labels s)) < 2)%nat ->
  disk w (Os.join (img_dir s) fname) = Some bytes ->
  decode_image bytes = Some img ->
  __getitem__ decode_image idx (s, w) =
    (Raise IndexOutOfRangeError,
     (s, mkWorld (disk w)
           (log w ++ [ReadFile (Os.join (img_dir s) fname);
                      DecodeImage (Os.join (img_dir s) fname)]))).
Proof.
  intros H0 Hcols Hd Himg.
  rewrite getitem_unfold, H0. cbn [Os.path_join]. rewrite Hd. cbv zeta.
  rewrite Himg.
  assert (H1 : iloc (image_labels s) idx 1 = Raise IndexOutOfRangeError).
  { unfold iloc in H0 |- *.
    destruct (validate_integer idx (len (image_labels s))); [|discriminate].
    rewrite DatasetFacts.validate_integer_out by lia. reflexivity. }
  rewrite H1. reflexivity.
Qed.

(** X6. An exception of a transform is the exception of [__getitem__], the
    image already read and decoded; when the feature transform raises, its
    exception is the one that surfaces, whatever the label transform would
    do. *)
Theorem getitem_transform_errors (s : CustomImageDatset) (w : World) (i : Z)
    (fname : string) (label : value) (bytes : list Byte.byte) (img : tensor) :
  0 <= i < len (image_labels s) ->
  manifest_row (image_labels s) (Z.to_nat i) = Some (fname, label) ->
  disk w (Os.join (img_dir s) fname) = Some bytes ->
  decode_image bytes = Some img ->
  (forall e : exn,
     apply_opt (transform s) (VTensor img) = Raise e ->
     __getitem__ decode_image i (s, w) =
       (Raise e,
        (s, mkWorld (disk w)
              (log w ++ [ReadFile (Os.join (img_dir s) fname);
                         DecodeImage (Os.join (img_dir s) fname)])))) /\
  (forall (f : value) (e : exn),
     apply_opt (transform s) (VTensor img) = Ok f ->
     apply_opt (target_transform s) label = Raise e ->
     __getitem__ decode_image i (s, w) =
       (Raise e,
        (s, mkWorld (disk w)
              (log w ++ [ReadFile (Os.join (img_dir s) fname);
                         DecodeImage (Os.join (img_dir s) fname)])))).
Proof.
  intros Hi Hrow Hd Himg.
  destruct (row_cells _ i fname label Hi Hrow) as [H0 H1].
  rewrite getitem_unfold, H0. cbn [Os.path_join]. rewrite Hd. cbv zeta.
  rewrite Himg, H1. split.
  - intros e ->. reflexivity.
  - intros f e -> ->. reflexivity.
Qed.

(** X7. On a store whose manifest has no rows, [Length()] is 0 and every
    index that fits a machine integer, 0 and -1 included, raises
    [IndexOutOfRangeError] without reading anything. *)
Theorem getitem_empty_store (s : CustomImageDatset) (w : World) :
  data (image_labels s) = [] ->
  __len__ (s, w) = (Ok 0, (s, w)) /\
  forall idx : Z,
    - 2 ^ 63 <= idx < 2 ^ 63 ->
    __getitem__ decode_image idx (s, w) = (Raise IndexOutOfRangeError, (s, w)).
Proof.
  intros Hempty. split.
  - rewrite DatasetFacts.len_run. unfold len. cbn [fst]. rewrite Hempty. reflexivity.
  - intros idx Hfit. apply DatasetFacts.getitem_out; [exact Hfit|].
    unfold len. rewrite Hempty. cbn. lia.
Qed.

(** X8. Construction with the default transforms, then a call: the store
    built from a manifest returns for a row the decoded image and the label
    as the manifest has them, and all that was read, construction included,
    is the manifest once and the image of that row once. *)
Theorem construct_then_getitem (annotation_file image_dir : string) (w : World)
    (df : DataFrame) (i : Z) (fname : string) (label : value)
    (bytes : list Byte.byte) (img : tensor) :
  manifest_at parse_csv (disk w) annotation_file = Some df ->
  0 <= i < len df ->
  manifest_row df (Z.to_nat i) = Some (fname, label) ->
  disk w (Os.join image_dir fname) = Some bytes ->
  decode_image bytes = Some img ->
  exists (s : CustomImageDatset) (w1 : World),
    __init__ parse_csv annotation_file image_dir None None w = (Ok s, w1) /\
    __getitem__ decode_image i (s, w1) =
      (Ok (VTensor img, label),
       (s, mkWorld (disk w)
             (log w ++ [ReadFile annotation_file;
                        ReadFile (Os.join image_dir fname);
                        DecodeImage (Os.join image_dir fname)]))).
Proof.
  intros Hm Hi Hrow Hd Himg.
  rewrite DatasetFacts.init_run, Hm.
  eexists _, _. split; [reflexivity|].
  destruct (row_cells _ i fname label Hi Hrow) as [H0 H1].
  rewrite getitem_unfold. cbn [image_labels img_dir transform target_transform disk log].
  rewrite H0. cbn [Os.path_join]. rewrite Hd. cbv zeta. rewrite Himg, H1.
  cbn [apply_opt]. rewrite <- app_assoc. reflexivity.
Qed.

(** X9. A store given the one-hot transform of the other notebook as its
    label transform: a row labelled [y] in 0..9 comes back with the vector
    that is 1.0 at [y] and 0.0 elsewhere; a row labelled outside the ten
    classes makes [__getitem__] raise the index error of [scatter_]. *)
Theorem getitem_one_hot_label (s : CustomImageDatset) (w : World) (i y : Z)
    (fname : string) (bytes : list Byte.byte) (img : tensor) (f : value) :
  target_transform s = Some Transform.target_transform ->
  0 <= i < len (image_labels s) ->
  manifest_row (image_labels s) (Z.to_nat i) = Some (fname, VInt y) ->
  disk w (Os.join (img_dir s) fname) = Some bytes ->
  decode_image bytes = Some img ->
  apply_opt (transform s) (VTensor img) = Ok f ->
  (0 <= y < 10 ->
   fst (__getitem__ decode_image i (s, w)) =
     Ok (f, VTensor (mkTensor float32 [10%nat]
                       (set_nth (repeat (SFloat (S754_zero false)) 10)
                          (Z.to_nat y) (SFloat (SFone 24 128)))))) /\
  (- 2 ^ 63 <= y < 2 ^ 63 -> ~ (0 <= y < 10) ->
   fst (__getitem__ decode_image i (s, w)) = Raise ScatterIndexError).
Proof.
  intros Ht Hi Hrow Hd Himg Hf.
  destruct (row_cells _ i fname (VInt y) Hi Hrow) as [H0 H1].
  rewrite getitem_unfold, H0. cbn [Os.path_join]. rewrite Hd. cbv zeta.
  rewrite Himg, H1, Hf, Ht. cbn [apply_opt]. split.
  - intros Hy. rewrite TransformFacts.target_transform_int by exact Hy. reflexivity.
  - intros Hy Hout. rewrite TransformEdges.target_transform_outside by assumption.
    reflexivity.
Qed.

(** X10. A file name that is an absolute path is read as it stands: the
    image directory plays no part, in what is read or in what is returned. *)
Theorem getitem_absolute_name (s : CustomImageDatset) (w : World) (idx : Z)
    (fname : string) :
  iloc (image_labels s) idx 0 = Ok (VStr fname) ->
  Os.startswith_sep fname = true ->
  log (snd (snd (__getitem__ decode_image idx (s, w)))) =
    log w ++ match disk w fname with
             | Some _ => [ReadFile fname; DecodeImage fname]
             | None => [ReadFile fname]
             end /\
  forall other_dir : string,
    fst (__getitem__ decode_image idx (s, w)) =
    fst (__getitem__ decode_image idx
           (mkDataset (image_labels s) other_dir (transform s) (target_transform s),
            w)).
Proof.
  intros H0 Habs.
  assert (J : forall d : string, Os.join d fname = fname)
    by (intros d; unfold Os.join; rewrite Habs; reflexivity).
  split.
  - rewrite DatasetFacts.getitem_frame. cbn [snd log call_events].
    rewrite H0. cbn [Os.path_join]. rewrite J. reflexivity.
  - intros other_dir. rewrite !getitem_unfold.
    cbn [image_labels img_dir transform target_transform].
    rewrite H0. cbn [Os.path_join]. rewrite !J.
    destruct (disk w fname) as [b|]; [|reflexivity]. cbv zeta.
    destruct (decode_image b) as [img|]; [|reflexivity].
    destruct (iloc (image_labels s) idx 1) as [label|]; [|reflexivity].
    destruct (apply_opt (transform s) (VTensor img)); [|reflexivity].
    destruct (apply_opt (target_transform s) label); reflexivity.
Qed.

(** What a call returns does not depend on the log. *)
Lemma run_call_log_free (c : call) (s : CustomImageDatset)
    (d : string -> option (list Byte.byte)) (l l' : list event) :
  fst (run_call decode_image c (s, mkWorld d l))
    = fst (run_call decode_image c (s, mkWorld d l')).
Proof.
  destruct c as [|idx]; [reflexivity|].
  unfold run_call. rewrite !getitem_unfold. cbn [disk log].
  destruct (iloc (image_labels s) idx 0) as [v|]; [|reflexivity].
  destruct (Os.path_join (img_dir s) v) as [p|]; [|reflexivity].
  destruct (d p) as [b|]; [|reflexivity]. cbv zeta.
  destruct (decode_image b) as [img|]; [|reflexivity].
  destruct (iloc (image_labels s) idx 1) as [label|]; [|reflexivity].
  destruct (apply_opt (transform s) (VTensor img)); [|reflexivity].
  destruct (apply_opt (target_transform s) label); reflexivity.
Qed.

(** X11. No call is affected by the calls before it: in any sequence of
    [Length()] and [GetItem(i)] calls, each one returns or raises what it
    would as the first call on the store, so asking for an index again gives
    the same sample again. *)
Theorem outcomes_history_independent (cs : list call) (s : CustomImageDatset)
    (w : World) :
  fst (run_calls decode_image cs (s, w))
    = map (fun c => fst (run_call decode_image c (s, w))) cs.
Proof.
  revert w; induction cs as [|c cs IH]; intros w; [reflexivity|].
  cbn [run_calls map].
  pose proof (DatasetFacts.run_call_frame decode_image c s w) as Hc.
  destruct (run_call decode_image c (s, w)) as [o st'] eqn:Ec.
  cbn [snd] in Hc. subst st'.
  specialize (IH (mkWorld (disk w) (log w ++ call_events s (disk w) c))).
  destruct (run_calls decode_image cs _) as [os st''].
  cbn [fst] in IH |- *. rewrite IH. f_equal.
  apply map_ext. intros c'. destruct w as [d l]. cbn [disk log].
  apply run_call_log_free.
Qed.

End Codecs.

(** The theorems on the stores of [Sample10] and [Edge]. *)

Lemma getitem_non_string_name_witness :
  __getitem__ Sample10.decode_image 0
    (mkDataset Edge.numeric_frame "imgs" None None, Sample10.world)
  = (Raise TypeError,
     (mkDataset Edge.numeric_frame "imgs" None None, Sample10.world)).
Proof.
  apply (getitem_non_string_name Sample10.decode_image
           (mkDataset Edge.numeric_frame "imgs" None None) Sample10.world 0
           (VInt 1)).
  - reflexivity.
  - intros fname. discriminate.
Defined.

Lemma getitem_missing_label_column_witness :
  __getitem__ Sample10.decode_image 0
    (mkDataset Edge.names_only_frame "imgs" None None, Sample10.world)
  = (Raise IndexOutOfRangeError,
     (mkDataset Edge.names_only_frame "imgs" None None,
      mkWorld Sample10.files
        [ReadFile "imgs/img0.png"; DecodeImage "imgs/img0.png"])).
Proof.
  apply (getitem_missing_label_column Sample10.decode_image
           (mkDataset Edge.names_only_frame "imgs" None None) Sample10.world 0
           "img0.png" Sample10.image_bytes Sample10.pixel).
  - reflexivity.
  - cbn. lia.
  - reflexivity.
  - reflexivity.
Defined.

Lemma getitem_transform_errors_witness :
  fst (__getitem__ Sample10.decode_image 3
         (mkDataset Sample10.frame "imgs" (Some Edge.refuse)
            (Some Transform.target_transform), Sample10.world))
    = Raise TypeError /\
  fst (__getitem__ Sample10.decode_image 0
         (mkDataset Edge.odd_frame "imgs" None (Some Transform.target_transform),
          Sample10.world))
    = Raise ScatterIndexError.
Proof.
  split.
  - destruct (getitem_transform_errors Sample10.decode_image
                (mkDataset Sample10.frame "imgs" (Some Edge.refuse)
                   (Some Transform.target_transform))
                Sample10.world 3 "img3.png" (VInt 3)
                Sample10.image_bytes Sample10.pixel) as [Hf _];
      [cbn; lia | reflexivity | reflexivity | reflexivity |].
    rewrite (Hf TypeError eq_refl). reflexivity.
  - destruct (getitem_transform_errors Sample10.decode_image
                (mkDataset Edge.odd_frame "imgs" None
                   (Some Transform.target_transform))
                Sample10.world 0 "img0.png" (VInt 10)
                Sample10.image_bytes Sample10.pixel) as [_ Hl];
      [cbn; lia | reflexivity | reflexivity | reflexivity |].
    rewrite (Hl (VTensor Sample10.pixel) ScatterIndexError eq_refl eq_refl).
    reflexivity.
Defined.

Lemma getitem_empty_store_witness :
  __getitem__ Sample10.decode_image 0
    (mkDataset Edge.empty_frame "imgs" None None, Sample10.world)
  = (Raise IndexOutOfRangeError,
     (mkDataset Edge.empty_frame "imgs" None None, Sample10.world)) /\
  __getitem__ Sample10.decode_image (- 1)
    (mkDataset Edge.empty_frame "imgs" None None, Sample10.world)
  = (Raise IndexOutOfRangeError,
     (mkDataset Edge.empty_frame "imgs" None None, Sample10.world)).
Proof.
  destruct (getitem_empty_store Sample10.decode_image
              (mkDataset Edge.empty_frame "imgs" None None) Sample10.world
              eq_refl) as [_ H].
  split; apply H; lia.
Defined.

Lemma construct_then_getitem_witness :
  exists (s : CustomImageDatset) (w1 : World),
    __init__ Sample10.parse_csv "labels.csv" "imgs" None None Sample10.world
      = (Ok s, w1) /\
    __getitem__ Sample10.decode_image 3 (s, w1) =
      (Ok (VTensor Sample10.pixel, VInt 3),
       (s, mkWorld Sample10.files
             [ReadFile "labels.csv"; ReadFile "imgs/img3.png";
              DecodeImage "imgs/img3.png"])).
Proof.
  apply (construct_then_getitem Sample10.parse_csv Sample10.decode_image
           "labels.csv" "imgs" Sample10.world Sample10.frame 3
           "img3.png" (VInt 3) Sample10.image_bytes Sample10.pixel);
    try reflexivity.
  cbn; lia.
Defined.

Lemma getitem_one_hot_label_witness :
  fst (__getitem__ Sample10.decode_image 5 (Sample10.store, Sample10.world)) =
    Ok (VTensor Sample10.pixel,
        VTensor (mkTensor float32 [10%nat]
          (map SFloat
             [S754_zero false; S754_zero false; SFone 24 128; S754_zero false;
              S754_zero false; S754_zero false; S754_zero false;
              S754_zero false; S754_zero false; S754_zero false]))) /\
  fst (__getitem__ Sample10.decode_image 0
         (mkDataset Edge.odd_frame "imgs" None (Some Transform.target_transform),
          Sample10.world))
    = Raise ScatterIndexError.
Proof.
  split.
  - destruct (getitem_one_hot_label Sample10.decode_image Sample10.store
                Sample10.world 5 2 "img5.png" Sample10.image_bytes
                Sample10.pixel (VTensor Sample10.pixel)) as [H _];
      [reflexivity | cbn; lia | reflexivity | reflexivity | reflexivity
       | reflexivity |].
    rewrite H by lia. reflexivity.
  - destruct (getitem_one_hot_label Sample10.decode_image
                (mkDataset Edge.odd_frame "imgs" None
                   (Some Transform.target_transform))
                Sample10.world 0 10 "img0.png" Sample10.image_bytes
                Sample10.pixel (VTensor Sample10.pixel)) as [_ H];
      [reflexivity | cbn; lia | reflexivity | reflexivity | reflexivity
       | reflexivity |].
    apply H; lia.
Defined.

Lemma getitem_absolute_name_witness :
  log (snd (snd (__getitem__ Sample10.decode_image 1
                   (mkDataset Edge.odd_frame "imgs" None None, Edge.world))))
    = [ReadFile "/data/img1.png"; DecodeImage "/data/img1.png"].
Proof.
  destruct (getitem_absolute_name Sample10.decode_image
              (mkDataset Edge.odd_frame "imgs" None None) Edge.world 1
              "/data/img1.png") as [H _]; [reflexivity | reflexivity |].
  rewrite H. reflexivity.
Defined.

End DatasetEdges.

(** ** The batch iterator, shuffled or not *)

Module LoaderEdges.

Import Pandas Datasets Loader.

Local Open Scope nat_scope.

Lemma sizes_bounds (b n : nat) :
  0 < b -> Forall (fun k => 1 <= k <= b) (sizes b n).
Proof.
  intros Hb. unfold sizes. apply Forall_app. split.
  - apply Forall_forall. intros k Hk. apply repeat_spec in Hk. lia.
  - pose proof (Nat.mod_upper_bound n b ltac:(lia)) as Hr.
    destruct (Nat.eqb_spec (n mod b) 0); constructor; [lia|constructor].
Qed.

Lemma sizes_head (b n : nat) :
  0 < b -> 0 < n -> exists rest, sizes b n = Nat.min b n :: rest.
Proof.
  intros Hb Hn. unfold sizes.
  destruct (Nat.lt_ge_cases n b) as [Hlt|Hge].
  - rewrite Nat.div_small, Nat.mod_small by exact Hlt. cbn [repeat app].
    destruct (Nat.eqb_spec n 0); [lia|].
    exists []. rewrite Nat.min_r by lia. reflexivity.
  - destruct (n / b) as [|q] eqn:Eq.
    + apply Nat.div_small_iff in Eq; lia.
    + cbn [repeat app]. eexists. rewrite Nat.min_l by lia. reflexivity.
Qed.

(** X12. Shuffled or not, whatever the generator draws, the batches of one
    epoch hold every index of the store exactly once. *)
Theorem epoch_visits_each_once (dl : DataLoader) (draw : nat -> nat)
    (s : CustomImageDatset) (w : World) :
  exists bs : list (list nat),
    fst (epoch_plan dl draw (s, w)) = Ok bs /\
    Permutation (List.concat bs) (seq 0 (List.length (data (image_labels s)))) /\
    NoDup (List.concat bs).
Proof.
  rewrite LoaderFacts.epoch_plan_run. cbn [fst].
  eexists. split; [reflexivity|].
  assert (P : Permutation
                (List.concat
                   (epoch_batches dl draw (List.length (data (image_labels s)))))
                (seq 0 (List.length (data (image_labels s))))).
  { unfold epoch_batches. rewrite LoaderFacts.batches_from_concat.
    cbn [app]. unfold index_order. destruct (shuffle dl).
    - apply LoaderFacts.randperm_perm.
    - apply Permutation_refl. }
  split; [exact P|].
  apply (Permutation_NoDup (Permutation_sym P)). apply seq_NoDup.
Qed.

(** X13. On a store that is not empty, no batch of an epoch is empty and
    none exceeds the batch size, and the first batch, the one a first
    [next] takes, holds [min(batch_size, n)] indices. *)
Theorem epoch_first_batch (dl : DataLoader) (draw : nat -> nat)
    (s : CustomImageDatset) (w : World) :
  data (image_labels s) <> [] ->
  exists (first : list nat) (rest : list (list nat)),
    fst (epoch_plan dl draw (s, w)) = Ok (first :: rest) /\
    Forall (fun batch =>
              1 <= List.length batch <= Pos.to_nat (batch_size dl))
           (first :: rest) /\
    List.length first
      = Nat.min (Pos.to_nat (batch_size dl))
                (List.length (data (image_labels s))).
Proof.
  intros Hd. rewrite LoaderFacts.epoch_plan_run. cbn [fst].
  pose proof (LoaderFacts.epoch_batches_sizes dl draw
                (List.length (data (image_labels s)))) as Hsz.
  assert (Hb : 0 < Pos.to_nat (batch_size dl)) by apply Pos2Nat.is_pos.
  assert (Hn : 0 < List.length (data (image_labels s)))
    by (destruct (data (image_labels s)); [contradiction|cbn; lia]).
  pose proof (sizes_bounds _ (List.length (data (image_labels s))) Hb) as Hall.
  rewrite <- Hsz in Hall. rewrite Forall_map in Hall.
  destruct (sizes_head _ _ Hb Hn) as [tl Hs]. rewrite Hs in Hsz.
  destruct (epoch_batches dl draw (List.length (data (image_labels s))))
    as [|first rest]; [discriminate|].
  injection Hsz as Hfirst _.
  exists first, rest. repeat split; assumption.
Qed.

Lemma epoch_first_batch_witness :
  exists (first : list nat) (rest : list (list nat)),
    fst (epoch_plan (mkLoader 64 true) (fun m => m / 2)
           (Sample10.store, Sample10.world)) = Ok (first :: rest) /\
    List.length first = 10.
Proof.
  destruct (epoch_first_batch (mkLoader 64 true) (fun m => m / 2)
              Sample10.store Sample10.world)
    as (first & rest & Hrun & _ & Hlen); [discriminate|].
  exists first, rest. split; [exact Hrun|exact Hlen].
Defined.

End LoaderEdges.

(** ** The names of the classes *)

Module NotebookFacts.

Import Notebook.

Local Open Scope Z_scope.

Lemma labels_map_defined (y : Z) :
  0 <= y < 10 -> exists name : string, dict_lookup labels_map y = Some name.
Proof.
  intros Hy.
  assert (Hc : y = 0 \/ y = 1 \/ y = 2 \/ y = 3 \/ y = 4 \/ y = 5 \/ y = 6
               \/ y = 7 \/ y = 8 \/ y = 9) by lia.
  repeat (destruct Hc as [->|Hc]); try subst y; eexists; reflexivity.
Qed.

Lemma labels_map_only (y : Z) (name : string) :
  dict_lookup labels_map y = Some name -> 0 <= y < 10.
Proof.
  unfold labels_map, dict_lookup.
  repeat (match goal with
          | |- context [Z.eqb y ?k] => destruct (Z.eqb_spec y k); [lia|]
          end).
  discriminate.
Qed.

(** X14. [labels_map] has a name for exactly the ten classes 0..9, the
    labels the one-hot transform accepts, any other key is missing, and no
    two classes share a name. *)
Theorem labels_map_classes (y : Z) :
  ((exists name : string, dict_lookup labels_map y = Some name) <-> 0 <= y < 10) /\
  ((exists name : string, dict_lookup labels_map y = Some name)
   <-> is_ok (Transform.target_transform (VInt y)) = true) /\
  forall (y' : Z) (name : string),
    dict_lookup labels_map y = Some name ->
    dict_lookup labels_map y' = Some name ->
    y = y'.
Proof.
  assert (D : (exists name : string, dict_lookup labels_map y = Some name)
              <-> 0 <= y < 10).
  { split; [intros [name H]; exact (labels_map_only y name H)
           | apply labels_map_defined]. }
  split; [exact D|]. split.
  - rewrite D. symmetry. apply TransformEdges.target_transform_ok_iff.
  - intros y' name H H'.
    pose proof (labels_map_only _ _ H) as Hy.
    pose proof (labels_map_only _ _ H') as Hy'.
    assert (Hc : y = 0 \/ y = 1 \/ y = 2 \/ y = 3 \/ y = 4 \/ y = 5 \/ y = 6
                 \/ y = 7 \/ y = 8 \/ y = 9) by lia.
    assert (Hc' : y' = 0 \/ y' = 1 \/ y' = 2 \/ y' = 3 \/ y' = 4 \/ y' = 5
                  \/ y' = 6 \/ y' = 7 \/ y' = 8 \/ y' = 9) by lia.
    repeat (destruct Hc as [->|Hc]); try subst y;
      repeat (destruct Hc' as [->|Hc']); try subst y';
      cbn in H, H'; congruence.
Qed.

End NotebookFacts.

(** ** More runs *)

Module EdgeRuns.

Import Pandas Datasets.

Local Open Scope string_scope.

Example falsy_transforms_are_skipped :
  fst (__getitem__ Sample10.decode_image 3
         (mkDataset Sample10.frame "imgs" (Some Edge.falsy) (Some Edge.falsy),
          Sample10.world))
    = Ok (VTensor Sample10.pixel, VInt 3).
Proof. reflexivity. Qed.

Example true_transform_is_applied :
  fst (__getitem__ Sample10.decode_image 3
         (mkDataset Sample10.frame "imgs" (Some Edge.refuse) (Some Edge.falsy),
          Sample10.world))
    = Raise TypeError.
Proof. reflexivity. Qed.

Example iloc_index_too_large :
  iloc Sample10.frame (2 ^ 63) 0 = Raise OverflowError.
Proof. reflexivity. Qed.

Example iloc_largest_index :
  iloc Sample10.frame (2 ^ 63 - 1) 0 = Raise IndexOutOfRangeError.
Proof. reflexivity. Qed.

Example scatter_value_too_large :
  scatter_ (zeros 3 uint8) 0 (mkTensor int64 [] [SInt 1]) 300 = Raise OverflowError.
Proof. reflexivity. Qed.

Example scatter_index_of_two_dimensions :
  scatter_ (zeros 3 uint8) 0
    (mkTensor int64 [2%nat; 1%nat] [SInt 1; SInt 0]) 1 = Raise DimensionError.
Proof. reflexivity. Qed.

End EdgeRuns.
